(** * NekoImageGallery: search and admin controllers

    A shallow embedding of [app/Controllers/search.py] and
    [app/Controllers/admin.py].  The handlers are written in a small
    state/exception/trace monad: the state is the external world (vector
    index, file storage, upload queue, random sources), exceptions are the
    Python exceptions the handlers raise or let through, and the trace
    records every call made to a collaborator, in order. *)

From Stdlib Require Import ZArith List String Ascii Bool Lia.
From Stdlib Require Import Sorted Permutation DecimalString.
Import ListNotations.
Local Open Scope string_scope.
Local Open Scope list_scope.

(** ** Python built-ins used by the controllers *)

Module Py.

(** [str.lower], on the ASCII letters (the only ones that occur in the
    allow-lists the controllers compare against). *)
Definition lower_ascii (c : ascii) : ascii :=
  let n := nat_of_ascii c in
  if andb (Nat.leb 65 n) (Nat.leb n 90) then ascii_of_nat (n + 32) else c.

Fixpoint lower (s : string) : string :=
  match s with
  | EmptyString => EmptyString
  | String c s' => String (lower_ascii c) (lower s')
  end.

(** [s[1:]] *)
Definition tail (s : string) : string :=
  match s with
  | EmptyString => EmptyString
  | String _ s' => s'
  end.

(** [str(n)] for a length *)
Definition str_of_nat (n : nat) : string :=
  NilZero.string_of_uint (Nat.to_uint n).

(** Splitting at ['/'].  [split_slash cur s] returns the components of
    [cur ++ s], where [cur] is the part of the current component already
    read. *)
Fixpoint split_slash (cur : string) (s : string) : list string :=
  match s with
  | EmptyString => [cur]
  | String c s' =>
      if Ascii.eqb c "/" then cur :: split_slash EmptyString s'
      else split_slash (cur ++ String c EmptyString)%string s'
  end.

(** [PurePath(p).name] on a POSIX flavour: the last component of the path
    that is neither empty nor ["."]. *)
Definition path_name (p : string) : string :=
  last (filter (fun c => negb (String.eqb c "" || String.eqb c "."))
               (split_slash "" p)) "".

(** [name.rfind('.')]: the suffix of [s] starting at its last dot, together
    with the number of characters before that dot, if there is a dot. *)
Fixpoint rfind_dot (s : string) : option (nat * string) :=
  match s with
  | EmptyString => None
  | String c s' =>
      match rfind_dot s' with
      | Some (i, suf) => Some (S i, suf)
      | None => if Ascii.eqb c "." then Some (0, s) else None
      end
  end.

(** [PurePath(p).suffix]: [name[i:]] when [0 < i < len(name) - 1] for
    [i = name.rfind('.')], the empty string otherwise. *)
Definition path_suffix (p : string) : string :=
  let name := path_name p in
  match rfind_dot name with
  | Some (i, suf) =>
      if andb (Nat.ltb 0 i) (Nat.ltb i (String.length name - 1)) then suf
      else ""
  | None => ""
  end.

(** [x in xs] for strings *)
Definition str_in (x : string) (xs : list string) : bool :=
  existsb (String.eqb x) xs.

(** A [dict] with string keys, as an association list. *)
Fixpoint dict_get {V : Type} (d : list (string * V)) (k : string) : option V :=
  match d with
  | [] => None
  | (k', v) :: d' => if String.eqb k k' then Some v else dict_get d' k
  end.

(** [list.sort]: CPython sorts with [<] only and is stable.  The insertion
    below puts an element in front of the first element that is not smaller
    than it, so an element keeps its place before the equal ones that
    followed it. *)
Fixpoint insert_by {A : Type} (lt : A -> A -> bool) (x : A) (l : list A)
  : list A :=
  match l with
  | [] => [x]
  | y :: l' => if lt y x then y :: insert_by lt x l' else x :: y :: l'
  end.

Fixpoint stable_sort {A : Type} (lt : A -> A -> bool) (l : list A) : list A :=
  match l with
  | [] => []
  | x :: l' => insert_by lt x (stable_sort lt l')
  end.

(** [l.sort(key=key, reverse=reverse)].  With [reverse=True] CPython
    reverses the list, sorts it ascending, and reverses it again; that is
    what keeps the descending sort stable. *)
Definition list_sort {A K : Type} (lt : K -> K -> bool) (key : A -> K)
    (reverse : bool) (l : list A) : list A :=
  let lt' := fun a b => lt (key a) (key b) in
  if reverse then rev (stable_sort lt' (rev l)) else stable_sort lt' l.

End Py.

(** ** Enumerations of the API model *)

(** Modelled from the spec: [SearchBasisEnum], [SearchCombinedPriorityEnum]
    and [SearchModelEnum] are declared in [app/Models/api_model.py], which is
    not among the sources.  A basis is one of vision, ocr, combined; a
    combined priority is vision or ocr, and compares equal to the basis of the
    same name. *)
Module SearchBasisEnum.
Inductive t : Type := vision | ocr | combined.

Definition eqb (a b : t) : bool :=
  match a, b with
  | vision, vision | ocr, ocr | combined, combined => true
  | _, _ => false
  end.
End SearchBasisEnum.

Module SearchCombinedPriorityEnum.
Inductive t : Type := vision | ocr.

Definition eqb (a b : t) : bool :=
  match a, b with
  | vision, vision | ocr, ocr => true
  | _, _ => false
  end.

Definition as_basis (p : t) : SearchBasisEnum.t :=
  match p with
  | vision => SearchBasisEnum.vision
  | ocr => SearchBasisEnum.ocr
  end.
End SearchCombinedPriorityEnum.

(** ** Vectors and scores *)

(** Embedding vectors and relevance scores.  A score is a Python [float]:
    [score_mul] is its [*] and [score_lt] its [<].
    [calculate_vectors_cosine] is [app/util/calculate_vectors_cosine.py]; its
    first argument is whatever the record holds, possibly [None].  The
    helper is taken to return a score on every input: what it does on
    [None] or on a zero vector is not in the sources, and nothing below
    relies on rescoring being able to fail or not. *)
Class Embedding : Type := {
  Vector : Type;
  Score : Type;
  score_mul : Score -> Score -> Score;
  score_lt : Score -> Score -> bool;
  calculate_vectors_cosine : option Vector -> Vector -> Score
}.

(** Two scores neither of which is smaller than the other. *)
Definition score_eqv `{Embedding} (a b : Score) : bool :=
  negb (score_lt a b) && negb (score_lt b a).

(** ** Records *)

(** Modelled from the spec: [ImageData] ([app/Models/img_data.py]) with the
    fields the controllers read and write. *)
Module ImageData.
Record t `{Embedding} : Type := mk {
  id : string;
  url : option string;
  thumbnail_url : option string;
  local : bool;
  categories : list string;
  starred : bool;
  format : string;
  index_date : Z;
  image_vector : option Vector;
  text_contain_vector : option Vector
}.

Definition set_starred `{Embedding} (p : t) (v : bool) : t :=
  mk _ (id p) (url p) (thumbnail_url p) (local p) (categories p) v
     (format p) (index_date p) (image_vector p) (text_contain_vector p).

Definition set_categories `{Embedding} (p : t) (v : list string) : t :=
  mk _ (id p) (url p) (thumbnail_url p) (local p) v (starred p)
     (format p) (index_date p) (image_vector p) (text_contain_vector p).
End ImageData.

(** Modelled from the spec: [SearchResult] ([app/Models/search_result.py]). *)
Module SearchResult.
Record t `{Embedding} : Type := mk {
  img : ImageData.t;
  score : Score
}.

Definition set_score `{Embedding} (r : t) (s : Score) : t := mk _ (img r) s.
End SearchResult.

(** ** Request models *)

(** Modelled from the spec: [AdvancedSearchModel]
    ([app/Models/api_model.py]): positive and negative criteria, a combination
    mode, an optional combined priority and an optional extra prompt.
    [validate_combined] rejects, with a validation error (422), a combined
    basis that lacks the priority or the extra prompt; the wording of its
    detail is not in the sources and is a parameter. *)
Module AdvancedSearchModel.
Record t (Mode : Type) : Type := mk {
  criteria : list string;
  negative_criteria : list string;
  mode : Mode;
  combined_priority : option SearchCombinedPriorityEnum.t;
  extra_prompt : option string
}.
Arguments criteria {Mode} _.
Arguments negative_criteria {Mode} _.
Arguments mode {Mode} _.
Arguments combined_priority {Mode} _.
Arguments extra_prompt {Mode} _.
End AdvancedSearchModel.

(** Modelled from the spec: [ImageOptUpdateModel]
    ([app/Models/api_models/admin_api_model.py]); a field is [None] when it
    is not present in the request, and [empty()] holds when no field is
    present at all. *)
Module ImageOptUpdateModel.
Record t : Type := mk {
  starred : option bool;
  categories : option (list string)
}.

Definition empty (m : t) : bool :=
  match starred m, categories m with
  | None, None => true
  | _, _ => false
  end.
End ImageOptUpdateModel.

(** Modelled from the spec: [UploadImageModel]
    ([app/Models/api_models/admin_query_params.py]). *)
Module UploadImageModel.
Record t : Type := mk {
  url : option string;
  thumbnail_url : option string;
  local : bool;
  categories : list string;
  starred : bool;
  skip_ocr : bool
}.
End UploadImageModel.

(** [fastapi.UploadFile]: the declared content type ([None] when the part
    carries no Content-Type header), the file name if any, and the bytes
    [read()] returns. *)
Module UploadFile.
Record t : Type := mk {
  content_type : option string;
  filename : option string;
  contents : list Byte.byte
}.
End UploadFile.

Module SearchPagingParams.
Record t : Type := mk {
  count : Z;
  skip : Z
}.

(** The bounds declared on the query parameters. *)
Definition valid (p : t) : Prop := (1 <= count p <= 100)%Z /\ (0 <= skip p)%Z.
End SearchPagingParams.

Module SearchBasisParams.
Record t : Type := mk {
  basis : SearchBasisEnum.t
}.
End SearchBasisParams.

(** ** Exceptions and results *)

Inductive exn : Type :=
| HTTPException (status_code : Z) (detail : string)
| PointNotFoundError
| UnidentifiedImageError
| AssertionError
| AttributeError
| NotImplementedError
| OtherError (name : string).

Inductive Res (A : Type) : Type :=
| Ok (a : A)
| Raise (e : exn).
Arguments Ok {A} a.
Arguments Raise {A} e.

Definition status_of (e : exn) : option Z :=
  match e with
  | HTTPException c _ => Some c
  | _ => None
  end.

(** ** Collaborators *)

(** The services the controllers call: configuration, the vector index
    ([db_context]), the active file storage, the upload queue, the
    transformers, and the library functions whose result depends on the
    payload ([Image.open], [generate_uuid]) or on the outside ([uuid4],
    [datetime.now]).  Reads are functions of the world, writes transform it.
    An optional argument is [None] when the call leaves it out.  The
    collaborators are taken to answer: apart from [retrieve_by_id] on an
    absent id and [Image.open], a call does not raise here, so a run in
    which the index, the storage, the queue or an encoder breaks down is
    outside what the theorems below speak of. *)
Class Services `{Embedding} : Type := {
  World : Type;
  Image : Type;
  Mode : Type;
  FileMeta : Type;
  (* app.config *)
  config_ocr_search_enable : bool;
  config_storage_method_enabled : bool;
  validate_combined_detail : string;
  (* db_context *)
  retrieve_by_id : string -> World -> option ImageData.t;
  deleteItems : list string -> World -> World;
  updatePayload : ImageData.t -> World -> World;
  validate_ids : list string -> World -> list string;
  get_counts : bool -> World -> Z;
  getVectorByBasis : option SearchBasisEnum.t -> string;
  querySearch :
    Vector -> option string -> option Z -> option Z -> World ->
    list SearchResult.t;
  querySimilar :
    string -> Z -> Z -> string -> World -> list SearchResult.t;
  queryAdvanced :
    list Vector -> list Vector -> string -> Mode -> Z -> Z -> World ->
    list SearchResult.t;
  (* storage_service.active_storage *)
  list_files : string -> string -> World -> list (string * FileMeta);
  move : string -> string -> World -> World;
  is_exist : string -> World -> bool;
  delete : string -> World -> World;
  (* upload_service *)
  upload_service_upload_image :
    Image -> ImageData.t -> list Byte.byte -> bool -> World -> World;
  get_queue_size : World -> Z;
  (* transformers_service *)
  get_text_vector : option string -> Vector;
  get_bert_vector : option string -> Vector;
  get_image_vector : Image -> Vector;
  get_random_vector : World -> Vector * World;
  (* libraries *)
  Image_open : list Byte.byte -> Res Image;
  generate_uuid : list Byte.byte -> string;
  uuid4 : World -> string * World;
  datetime_now : World -> Z
}.

(** One entry per call to a collaborator. *)
Inductive Event `{Services} : Type :=
| GetTextVector (t : option string)
| GetBertVector (t : option string)
| GetImageVector (img : Image)
| GetRandomVector
| QuerySearch (v : Vector) (name : option string) (top_k skip : option Z)
| QuerySimilar (id : string) (top_k skip : Z) (name : string)
| QueryAdvanced (pos neg : list Vector) (name : string) (m : Mode)
    (top_k skip : Z)
| RetrieveById (id : string)
| DeleteItems (ids : list string)
| UpdatePayload (p : ImageData.t)
| ValidateIds (ids : list string)
| GetCounts (exact : bool)
| ListFiles (dir pattern : string)
| Move (src dst : string)
| IsExist (p : string)
| Delete (p : string)
| UploadImage (img : Image) (data : ImageData.t) (bytes : list Byte.byte)
    (skip_ocr : bool)
| GetQueueSize.

Definition is_encoder_call `{Services} (e : Event) : bool :=
  match e with
  | GetTextVector _ | GetBertVector _ | GetImageVector _ | GetRandomVector =>
      true
  | _ => false
  end.

Definition is_index_query `{Services} (e : Event) : bool :=
  match e with
  | QuerySearch _ _ _ _ | QuerySimilar _ _ _ _
  | QueryAdvanced _ _ _ _ _ _ => true
  | _ => false
  end.

(** The calls that change the index, the storage or the queue. *)
Definition is_mutation `{Services} (e : Event) : bool :=
  match e with
  | DeleteItems _ | UpdatePayload _ | Move _ _ | Delete _
  | UploadImage _ _ _ _ => true
  | _ => false
  end.

(** ** The handler monad *)

Definition M `{Services} (A : Type) : Type :=
  World -> Res A * World * list Event.

Definition ret `{Services} {A : Type} (a : A) : M A :=
  fun w => (Ok a, w, []).

Definition raise `{Services} {A : Type} (e : exn) : M A :=
  fun w => (Raise e, w, []).

Definition bind `{Services} {A B : Type} (m : M A) (f : A -> M B) : M B :=
  fun w =>
    match m w with
    | (Ok a, w1, t1) =>
        match f a w1 with
        | (r, w2, t2) => (r, w2, t1 ++ t2)
        end
    | (Raise e, w1, t1) => (Raise e, w1, t1)
    end.

Notation "x <- m ;; k" := (bind m (fun x => k))
  (at level 61, m at next level, right associativity).
Notation "m ;;; k" := (bind m (fun _ => k))
  (at level 61, right associativity).

(** [try: m except e: h] for the exceptions [catches] selects. *)
Definition try_except `{Services} {A : Type} (m : M A)
    (catches : exn -> bool) (h : exn -> M A) : M A :=
  fun w =>
    match m w with
    | (Raise e, w1, t1) =>
        if catches e then
          match h e w1 with
          | (r, w2, t2) => (r, w2, t1 ++ t2)
          end
        else (Raise e, w1, t1)
    | r => r
    end.

(** A read, a write and a partial read of the world, each leaving its
    event in the trace. *)
Definition read `{Services} {A : Type} (ev : Event) (f : World -> A) : M A :=
  fun w => (Ok (f w), w, [ev]).

Definition write `{Services} (ev : Event) (f : World -> World) : M unit :=
  fun w => (Ok tt, f w, [ev]).

Definition draw `{Services} {A : Type} (ev : list Event)
    (f : World -> A * World) : M A :=
  fun w => (Ok (fst (f w)), snd (f w), ev).

Definition lift `{Services} {A : Type} (r : Res A) : M A :=
  fun w => (r, w, []).

Definition result_of `{Services} {A : Type} (o : Res A * World * list Event)
  : Res A := fst (fst o).
Definition world_of `{Services} {A : Type} (o : Res A * World * list Event)
  : World := snd (fst o).
Definition trace_of `{Services} {A : Type} (o : Res A * World * list Event)
  : list Event := snd o.

(** A computation none of whose calls changes the index, the storage or
    the queue, from any world. *)
Definition read_only `{Services} {A : Type} (m : M A) : Prop :=
  forall w, Forall (fun e => is_mutation e = false) (trace_of (m w)).

(** The calls to the file storage. *)
Definition is_storage_call `{Services} (e : Event) : bool :=
  match e with
  | ListFiles _ _ | Move _ _ | IsExist _ | Delete _ => true
  | _ => false
  end.

(** The calls [delete_image] makes for the thumbnail of a record, from the
    world [w]: none without a thumbnail url, else the existence check and,
    if the file exists, its deletion. *)
Definition thumbnail_calls `{Services} (point : ImageData.t) (w : World)
  : list Event :=
  let thumbnail_file :=
    ("thumbnails/" ++ ImageData.id point ++ ".webp")%string in
  match ImageData.thumbnail_url point with
  | None => []
  | Some _ =>
      IsExist thumbnail_file
      :: (if is_exist thumbnail_file w then [Delete thumbnail_file] else [])
  end.

Definition is_PointNotFoundError (e : exn) : bool :=
  match e with PointNotFoundError => true | _ => false end.

Definition is_UnidentifiedImageError (e : exn) : bool :=
  match e with UnidentifiedImageError => true | _ => false end.

(** [[f(x) for x in xs]] where [f] calls a collaborator. *)
Fixpoint mapM `{Services} {A B : Type} (f : A -> M B) (xs : list A)
  : M (list B) :=
  match xs with
  | [] => ret []
  | x :: xs' => y <- f x ;; ys <- mapM f xs' ;; ret (y :: ys)
  end.

(** ** The collaborators' calls, traced *)

Section Calls.
Context `{Services}.

Definition call_get_text_vector (t : option string) : M Vector :=
  read (GetTextVector t) (fun _ => get_text_vector t).

Definition call_get_bert_vector (t : option string) : M Vector :=
  read (GetBertVector t) (fun _ => get_bert_vector t).

Definition call_get_image_vector (img : Image) : M Vector :=
  read (GetImageVector img) (fun _ => get_image_vector img).

Definition call_get_random_vector : M Vector :=
  draw [GetRandomVector] get_random_vector.

Definition call_querySearch (v : Vector) (name : option string)
    (top_k skip : option Z) : M (list SearchResult.t) :=
  read (QuerySearch v name top_k skip) (querySearch v name top_k skip).

Definition call_querySimilar (id : string) (top_k skip : Z) (name : string)
  : M (list SearchResult.t) :=
  read (QuerySimilar id top_k skip name) (querySimilar id top_k skip name).

Definition call_queryAdvanced (pos neg : list Vector) (name : string)
    (m : Mode) (top_k skip : Z) : M (list SearchResult.t) :=
  read (QueryAdvanced pos neg name m top_k skip)
       (queryAdvanced pos neg name m top_k skip).

(** [retrieve_by_id] raises [PointNotFoundError] for an absent id. *)
Definition call_retrieve_by_id (id : string) : M ImageData.t :=
  fun w =>
    (match retrieve_by_id id w with
     | Some p => Ok p
     | None => Raise PointNotFoundError
     end, w, [RetrieveById id]).

Definition call_deleteItems (ids : list string) : M unit :=
  write (DeleteItems ids) (deleteItems ids).

Definition call_updatePayload (p : ImageData.t) : M unit :=
  write (UpdatePayload p) (updatePayload p).

Definition call_validate_ids (ids : list string) : M (list string) :=
  read (ValidateIds ids) (validate_ids ids).

Definition call_get_counts (exact : bool) : M Z :=
  read (GetCounts exact) (get_counts exact).

Definition call_list_files (dir pattern : string)
  : M (list (string * FileMeta)) :=
  read (ListFiles dir pattern) (list_files dir pattern).

Definition call_move (src dst : string) : M unit :=
  write (Move src dst) (move src dst).

Definition call_is_exist (p : string) : M bool :=
  read (IsExist p) (is_exist p).

Definition call_delete (p : string) : M unit :=
  write (Delete p) (delete p).

Definition call_upload_image (img : Image) (data : ImageData.t)
    (bytes : list Byte.byte) (skip_ocr : bool) : M unit :=
  write (UploadImage img data bytes skip_ocr)
        (upload_service_upload_image img data bytes skip_ocr).

Definition call_get_queue_size : M Z :=
  read GetQueueSize get_queue_size.

Definition call_uuid4 : M string := draw [] uuid4.

Definition call_datetime_now : M Z :=
  fun w => (Ok (datetime_now w), w, []).

End Calls.

(** ** Responses *)

Inductive NekoProtocol : Type :=
| mkNekoProtocol (message : string).

Inductive SearchApiResponse `{Embedding} : Type :=
| mkSearchApiResponse (result : list SearchResult.t) (message : string)
    (query_id : string).

Inductive ImageUploadResponse : Type :=
| mkImageUploadResponse (message : string) (image_id : string).

Inductive ServerInfoResponse : Type :=
| mkServerInfoResponse (message : string) (image_count : Z)
    (index_queue_length : Z).

(** ** [app/Controllers/search.py] *)

Module Search.
Section Handlers.
Context `{Services}.

(** [SearchBasisParams.__init__] *)
Definition SearchBasisParams_init (basis : SearchBasisEnum.t)
  : Res SearchBasisParams.t :=
  if SearchBasisEnum.eqb basis SearchBasisEnum.ocr
     && negb config_ocr_search_enable
  then Raise (HTTPException 400 "OCR search is not enabled.")
  else if SearchBasisEnum.eqb basis SearchBasisEnum.combined
          && negb config_ocr_search_enable
  then Raise (HTTPException 400
    "You used combined search, but it needs OCR search which is not enabled.")
  else Ok (SearchBasisParams.mk basis).

(** Modelled from the spec: [AdvancedSearchModel.validate_combined]; with a
    combined basis the priority and the extra prompt must both be present,
    else the request fails with a validation error (422). *)
Definition validate_combined (model : AdvancedSearchModel.t Mode)
    (basis : SearchBasisEnum.t) : M unit :=
  if SearchBasisEnum.eqb basis SearchBasisEnum.combined
  then
    match AdvancedSearchModel.combined_priority model,
          AdvancedSearchModel.extra_prompt model with
    | Some _, Some _ => ret tt
    | _, _ => raise (HTTPException 422 validate_combined_detail)
    end
  else ret tt.

Definition results_message (n : nat) : string :=
  ("Successfully get " ++ Py.str_of_nat n ++ " results.")%string.

(** [x == SearchBasisEnum.ocr] for a value that may be [None] *)
Definition is_ocr (b : option SearchBasisEnum.t) : bool :=
  match b with
  | Some SearchBasisEnum.ocr => true
  | _ => false
  end.

(** [x == SearchCombinedPriorityEnum.ocr] for a value that may be [None] *)
Definition priority_is_ocr (p : option SearchCombinedPriorityEnum.t) : bool :=
  match p with
  | Some SearchCombinedPriorityEnum.ocr => true
  | _ => false
  end.

Definition textSearch (prompt : string) (basis : SearchBasisParams.t)
    (paging : SearchPagingParams.t) : M SearchApiResponse :=
  text_vector <-
    (if SearchBasisEnum.eqb (SearchBasisParams.basis basis)
          SearchBasisEnum.vision
     then call_get_text_vector (Some prompt)
     else call_get_bert_vector (Some prompt)) ;;
  results <-
    call_querySearch text_vector
      (Some (getVectorByBasis (Some (SearchBasisParams.basis basis))))
      (Some (SearchPagingParams.count paging))
      (Some (SearchPagingParams.skip paging)) ;;
  query_id <- call_uuid4 ;;
  ret (mkSearchApiResponse results (results_message (List.length results))
         query_id).

Definition imageSearch (image : list Byte.byte)
    (paging : SearchPagingParams.t) : M SearchApiResponse :=
  img <- lift (Image_open image) ;;
  image_vector <- call_get_image_vector img ;;
  results <-
    call_querySearch image_vector None
      (Some (SearchPagingParams.count paging))
      (Some (SearchPagingParams.skip paging)) ;;
  query_id <- call_uuid4 ;;
  ret (mkSearchApiResponse results (results_message (List.length results))
         query_id).

Definition similarWith (id : string) (basis : SearchBasisParams.t)
    (paging : SearchPagingParams.t) : M SearchApiResponse :=
  results <-
    call_querySimilar id (SearchPagingParams.count paging)
      (SearchPagingParams.skip paging)
      (getVectorByBasis (Some (SearchBasisParams.basis basis))) ;;
  query_id <- call_uuid4 ;;
  ret (mkSearchApiResponse results (results_message (List.length results))
         query_id).

(** The embedding a result is compared by: [itm.img.image_vector] unless it
    is [None], then [itm.img.text_contain_vector]. *)
Definition extra_vector (itm : SearchResult.t) : option Vector :=
  match ImageData.image_vector (SearchResult.img itm) with
  | Some v => Some v
  | None => ImageData.text_contain_vector (SearchResult.img itm)
  end.

(** One turn of the loop: [itm.score = similar_score * itm.score]. *)
Definition rescore (extra_prompt_vector : Vector) (itm : SearchResult.t)
  : SearchResult.t :=
  let similar_score :=
    calculate_vectors_cosine (extra_vector itm) extra_prompt_vector in
  SearchResult.set_score itm (score_mul similar_score (SearchResult.score itm)).

(** The list is updated in place in the source; the value returned here is
    the list as the caller sees it afterwards. *)
Definition calculate_and_sort_by_combined_scores
    (result : list SearchResult.t) (model : AdvancedSearchModel.t Mode)
  : M (list SearchResult.t) :=
  extra_prompt_vector <-
    (if priority_is_ocr (AdvancedSearchModel.combined_priority model)
     then call_get_text_vector (AdvancedSearchModel.extra_prompt model)
     else call_get_bert_vector (AdvancedSearchModel.extra_prompt model)) ;;
  let result := map (rescore extra_prompt_vector) result in
  ret (Py.list_sort score_lt SearchResult.score true result).

(** [_current_basis] *)
Definition current_basis (model : AdvancedSearchModel.t Mode)
    (basis : SearchBasisParams.t) : option SearchBasisEnum.t :=
  if SearchBasisEnum.eqb (SearchBasisParams.basis basis)
       SearchBasisEnum.combined
  then option_map SearchCombinedPriorityEnum.as_basis
         (AdvancedSearchModel.combined_priority model)
  else Some (SearchBasisParams.basis basis).

Definition advancedSearch (model : AdvancedSearchModel.t Mode)
    (basis : SearchBasisParams.t) (paging : SearchPagingParams.t)
  : M SearchApiResponse :=
  validate_combined model (SearchBasisParams.basis basis) ;;;
  if Nat.eqb (List.length (AdvancedSearchModel.criteria model)
              + List.length (AdvancedSearchModel.negative_criteria model)) 0
  then raise (HTTPException 422 "At least one criteria should be provided.")
  else
    let _current_basis := current_basis model basis in
    vectors <-
      (if is_ocr _current_basis then
         positive_vectors <-
           mapM (fun t => call_get_bert_vector (Some t))
                (AdvancedSearchModel.criteria model) ;;
         negative_vectors <-
           mapM (fun t => call_get_bert_vector (Some t))
                (AdvancedSearchModel.negative_criteria model) ;;
         ret (positive_vectors, negative_vectors)
       else
         positive_vectors <-
           mapM (fun t => call_get_text_vector (Some t))
                (AdvancedSearchModel.criteria model) ;;
         negative_vectors <-
           mapM (fun t => call_get_text_vector (Some t))
                (AdvancedSearchModel.negative_criteria model) ;;
         ret (positive_vectors, negative_vectors)) ;;
    result <-
      call_queryAdvanced (fst vectors) (snd vectors)
        (getVectorByBasis _current_basis) (AdvancedSearchModel.mode model)
        (SearchPagingParams.count paging) (SearchPagingParams.skip paging) ;;
    result <-
      (if SearchBasisEnum.eqb (SearchBasisParams.basis basis)
            SearchBasisEnum.combined
       then calculate_and_sort_by_combined_scores result model
       else ret result) ;;
    query_id <- call_uuid4 ;;
    ret (mkSearchApiResponse result (results_message (List.length result))
           query_id).

Definition randomPick (paging : SearchPagingParams.t) : M SearchApiResponse :=
  random_vector <- call_get_random_vector ;;
  result <-
    call_querySearch random_vector None
      (Some (SearchPagingParams.count paging)) None ;;
  query_id <- call_uuid4 ;;
  ret (mkSearchApiResponse result (results_message (List.length result))
         query_id).

Definition recallQuery (queryId : string) : M SearchApiResponse :=
  raise NotImplementedError.

End Handlers.
End Search.

(** ** [app/Controllers/admin.py] *)

Module Admin.
Section Handlers.
Context `{Services}.

Definition not_found {A : Type} (_ : exn) : M A :=
  raise (HTTPException 404 "Cannot find the image with the given ID.").

(** The part of [delete_image] that runs for a local image. *)
Definition delete_local_files (point : ImageData.t) : M unit :=
  items <- call_list_files "" (ImageData.id point ++ ".*")%string ;;
  let image_files := map fst items in
  (if Nat.leb (List.length image_files) 1 then ret tt
   else raise AssertionError) ;;;
  match image_files with
  | [] => ret tt
  | f :: _ => call_move f ("_deleted/" ++ Py.path_name f)%string
  end ;;;
  match ImageData.thumbnail_url point with
  | Some _ =>
      let thumbnail_file :=
        ("thumbnails/" ++ ImageData.id point ++ ".webp")%string in
      found <- call_is_exist thumbnail_file ;;
      if found then call_delete thumbnail_file else ret tt
  | None => ret tt
  end.

Definition delete_image (image_id : string) : M NekoProtocol :=
  point <-
    try_except (call_retrieve_by_id image_id) is_PointNotFoundError
      not_found ;;
  call_deleteItems [ImageData.id point] ;;;
  (if ImageData.local point && config_storage_method_enabled
   then delete_local_files point
   else ret tt) ;;;
  ret (mkNekoProtocol "Image deleted.").

Definition update_image (image_id : string) (model : ImageOptUpdateModel.t)
  : M NekoProtocol :=
  if ImageOptUpdateModel.empty model
  then raise (HTTPException 422 "Nothing to update.")
  else
    point <-
      try_except (call_retrieve_by_id image_id) is_PointNotFoundError
        not_found ;;
    let point :=
      match ImageOptUpdateModel.starred model with
      | Some v => ImageData.set_starred point v
      | None => point
      end in
    let point :=
      match ImageOptUpdateModel.categories model with
      | Some v => ImageData.set_categories point v
      | None => point
      end in
    call_updatePayload point ;;;
    ret (mkNekoProtocol "Image updated.").

Definition IMAGE_MIMES : list (string * string) :=
  [ ("image/jpeg", "jpeg"); ("image/png", "png");
    ("image/webp", "webp"); ("image/gif", "gif") ].

Definition IMAGE_EXTENSIONS : list string :=
  [ ".jpg"; ".png"; ".jpeg"; ".jfif"; ".webp"; ".gif" ].

(** The value of [img_type] when the format has been looked up.  A file
    that declares no content type has no format: [upload_image] raises on
    it before any lookup. *)
Definition resolve_img_type (image_file : UploadFile.t) : option string :=
  match UploadFile.content_type image_file with
  | None => None
  | Some content_type =>
      match Py.dict_get IMAGE_MIMES (Py.lower content_type) with
      | Some t => Some t
      | None =>
          match UploadFile.filename image_file with
          | Some (String c fn) =>
              let extension := Py.lower (Py.path_suffix (String c fn)) in
              if Py.str_in extension IMAGE_EXTENSIONS
              then Some (Py.tail extension)
              else None
          | _ => None
          end
      end
  end.

Definition duplicate_detail (img_id : string) : string :=
  ("The uploaded point is already contained in the database! entity id: "
   ++ img_id)%string.

Definition cannot_open {A : Type} (_ : exn) : M A :=
  raise (HTTPException 400 "Cannot open the image file.").

(** [image_file.content_type.lower()] comes first: on a content type that
    is [None] it raises [AttributeError]. *)
Definition upload_image (image_file : UploadFile.t)
    (model : UploadImageModel.t) : M ImageUploadResponse :=
  match UploadFile.content_type image_file, resolve_img_type image_file with
  | None, _ => raise AttributeError
  | Some _, None | Some _, Some EmptyString =>
      raise (HTTPException 415 "Unsupported image format.")
  | Some _, Some img_type =>
      let img_bytes := UploadFile.contents image_file in
      let img_id := generate_uuid img_bytes in
      existing <- call_validate_ids [img_id] ;;
      if negb (Nat.eqb (List.length existing) 0)
      then raise (HTTPException 409 (duplicate_detail img_id))
      else
        image <-
          try_except (lift (Image_open img_bytes)) is_UnidentifiedImageError
            cannot_open ;;
        index_date <- call_datetime_now ;;
        let image_data :=
          ImageData.mk _ img_id (UploadImageModel.url model)
            (UploadImageModel.thumbnail_url model)
            (UploadImageModel.local model)
            (UploadImageModel.categories model)
            (UploadImageModel.starred model)
            img_type index_date None None in
        call_upload_image image image_data img_bytes
          (UploadImageModel.skip_ocr model) ;;;
        ret (mkImageUploadResponse "OK. Image added to upload queue." img_id)
  end.

Definition server_info : M ServerInfoResponse :=
  image_count <- call_get_counts true ;;
  index_queue_length <- call_get_queue_size ;;
  ret (mkServerInfoResponse "Successfully get server information!"
         image_count index_queue_length).

End Handlers.
End Admin.

(** ** A small instance of the collaborators

    A one-dimensional embedding space with integer scores, an index kept as a
    list of records, a storage kept as a list of paths.  It is used to run
    the handlers on concrete requests. *)

Module Demo.

#[export] Instance embedding : Embedding := {|
  Vector := Z;
  Score := Z;
  score_mul := Z.mul;
  score_lt := Z.ltb;
  calculate_vectors_cosine := fun a b =>
    match a with
    | Some a' => Z.sgn (a' * b)
    | None => 0%Z
    end
|}.

Record world : Type := mkWorld {
  index : list ImageData.t;
  files : list string;
  queue : list string;
  ticks : Z
}.

Definition has_id (i : string) (p : ImageData.t) : bool :=
  String.eqb (ImageData.id p) i.

(** [fnmatch] for the patterns of the form [prefix*] *)
Fixpoint glob (pattern name : string) : bool :=
  match pattern, name with
  | String "*" EmptyString, _ => true
  | String c p', String d n' => Ascii.eqb c d && glob p' n'
  | EmptyString, EmptyString => true
  | _, _ => false
  end.

Definition page {A : Type} (top_k skip : Z) (l : list A) : list A :=
  firstn (Z.to_nat top_k) (skipn (Z.to_nat skip) l).

Definition hits (v : Z) (w : world) : list SearchResult.t :=
  map (fun p => SearchResult.mk _ p
                  (calculate_vectors_cosine (ImageData.image_vector p) v))
      (index w).

Definition default {A : Type} (d : A) (o : option A) : A :=
  match o with
  | Some a => a
  | None => d
  end.

#[export] Instance services : Services := {|
  World := world;
  Image := list Byte.byte;
  Mode := bool;
  FileMeta := unit;
  config_ocr_search_enable := true;
  config_storage_method_enabled := true;
  validate_combined_detail := "combined search needs more fields";
  retrieve_by_id := fun i w => find (has_id i) (index w);
  deleteItems := fun ids w =>
    mkWorld (filter (fun p => negb (Py.str_in (ImageData.id p) ids)) (index w))
            (files w) (queue w) (ticks w);
  updatePayload := fun p w =>
    mkWorld (map (fun q => if has_id (ImageData.id p) q then p else q)
                 (index w))
            (files w) (queue w) (ticks w);
  validate_ids := fun ids w =>
    filter (fun i => existsb (has_id i) (index w)) ids;
  get_counts := fun _ w => Z.of_nat (List.length (index w));
  getVectorByBasis := fun b =>
    match b with
    | Some SearchBasisEnum.ocr => "text_contain_vector"
    | _ => "image_vector"
    end;
  querySearch := fun v _ top_k skip w =>
    page (default 10%Z top_k) (default 0%Z skip) (hits v w);
  querySimilar := fun i top_k skip _ w =>
    page top_k skip
      (filter (fun r => negb (has_id i (SearchResult.img r))) (hits 1%Z w));
  queryAdvanced := fun pos neg _ _ top_k skip w =>
    page top_k skip (hits (fold_right Z.add 0%Z pos
                           - fold_right Z.add 0%Z neg)%Z w);
  list_files := fun _ pattern w =>
    map (fun f => (f, tt)) (filter (glob pattern) (files w));
  move := fun src dst w =>
    mkWorld (index w)
            (map (fun f => if String.eqb f src then dst else f) (files w))
            (queue w) (ticks w);
  is_exist := fun p w => Py.str_in p (files w);
  delete := fun p w =>
    mkWorld (index w) (filter (fun f => negb (String.eqb f p)) (files w))
            (queue w) (ticks w);
  upload_service_upload_image := fun _ data _ _ w =>
    mkWorld (index w) (files w) (queue w ++ [ImageData.id data]) (ticks w);
  get_queue_size := fun w => Z.of_nat (List.length (queue w));
  get_text_vector := fun _ => 1%Z;
  get_bert_vector := fun _ => (-1)%Z;
  get_image_vector := fun _ => 1%Z;
  get_random_vector := fun w =>
    (if Z.even (ticks w) then 1%Z else (-1)%Z,
     mkWorld (index w) (files w) (queue w) (ticks w + 1));
  Image_open := fun b =>
    match b with
    | [] => Raise UnidentifiedImageError
    | _ => Ok b
    end;
  generate_uuid := string_of_list_byte;
  uuid4 := fun w =>
    (Py.str_of_nat (Z.to_nat (ticks w)),
     mkWorld (index w) (files w) (queue w) (ticks w + 1));
  datetime_now := ticks
|}.

Definition record (i : string) (is_local : bool) (thumb : option string)
    (iv tv : option Z) : ImageData.t :=
  ImageData.mk _ i None thumb is_local [] false "png" 0 iv tv.

Definition hit (i : string) (iv tv : option Z) (s : Z) : SearchResult.t :=
  SearchResult.mk _ (record i false None iv tv) s.

(** The bytes of ["AB"], and an index that already holds them. *)
Definition stored_bytes : list Byte.byte := [Byte.x41; Byte.x42].

Definition stored_world : world :=
  mkWorld [record "AB" false None (Some 1%Z) None] [] [] 0.

(** The bytes of ["CD"], which [stored_world] does not hold. *)
Definition fresh_bytes : list Byte.byte := [Byte.x43; Byte.x44].

(** A local record with a thumbnail, and storages that hold one or two
    originals for it. *)
Definition local_record : ImageData.t :=
  record "AB" true (Some "thumbnails/AB.webp") (Some 1%Z) None.

Definition one_file_world : world :=
  mkWorld [local_record] ["AB.png"; "CD.png"; "thumbnails/AB.webp"] [] 0.

Definition two_files_world : world :=
  mkWorld [local_record] ["AB.png"; "AB.jpg"; "thumbnails/AB.webp"] [] 0.

End Demo.

(** * Properties *)

(** ** The sort *)

Section SortFacts.
Context {A : Type} (lt : A -> A -> bool).

Lemma insert_by_perm (x : A) (l : list A) :
  Permutation (Py.insert_by lt x l) (x :: l).
Proof.
  induction l as [|y l IH]; simpl.
  - apply Permutation_refl.
  - destruct (lt y x).
    + apply Permutation_trans with (y :: x :: l).
      * now apply perm_skip.
      * apply perm_swap.
    + apply Permutation_refl.
Qed.

Lemma stable_sort_perm (l : list A) : Permutation (Py.stable_sort lt l) l.
Proof.
  induction l as [|x l IH]; simpl.
  - constructor.
  - eapply Permutation_trans; [apply insert_by_perm|].
    now apply perm_skip.
Qed.

(** Filtering commutes with the insertion when the elements the insertion
    jumps over are not selected together with the inserted one. *)
Lemma filter_insert_by (p : A -> bool) (x : A) (l : list A) :
  (forall y, In y l -> lt y x = true -> p x = true -> p y = false) ->
  filter p (Py.insert_by lt x l) = filter p (x :: l).
Proof.
  induction l as [|y l IH]; intros Hjump; simpl; [reflexivity|].
  destruct (lt y x) eqn:Hyx; simpl; [|reflexivity].
  rewrite IH by (intros z Hz; apply Hjump; now right).
  simpl. destruct (p x) eqn:Hpx; [|reflexivity].
  now rewrite (Hjump y (or_introl eq_refl) Hyx eq_refl).
Qed.

Lemma filter_rev_comm (p : A -> bool) (l : list A) :
  filter p (rev l) = rev (filter p l).
Proof.
  induction l as [|x l IH]; simpl; [reflexivity|].
  rewrite filter_app, IH. simpl.
  destruct (p x); simpl; [reflexivity|apply app_nil_r].
Qed.

Lemma StronglySorted_snoc (R : A -> A -> Prop) (l : list A) (x : A) :
  StronglySorted R l -> Forall (fun y => R y x) l ->
  StronglySorted R (l ++ [x]).
Proof.
  induction 1 as [|y l Hs IH Hy]; intros Hall; simpl.
  - repeat constructor.
  - inversion Hall as [|? ? Hyx Hl]; subst.
    constructor; [now apply IH|].
    apply Forall_app; split; [exact Hy|now constructor].
Qed.

Lemma StronglySorted_rev (R : A -> A -> Prop) (l : list A) :
  StronglySorted R l -> StronglySorted (fun a b => R b a) (rev l).
Proof.
  induction 1 as [|y l Hs IH Hy]; simpl; [constructor|].
  apply StronglySorted_snoc; [exact IH|].
  apply Forall_rev. exact Hy.
Qed.

(** From here on [lt] is a strict weak order: asymmetric, and with a
    transitive complement. *)
Hypothesis lt_asym : forall a b, lt a b = true -> lt b a = false.
Hypothesis lt_negtrans :
  forall a b c, lt a b = false -> lt b c = false -> lt a c = false.

Lemma insert_by_sorted (x : A) (l : list A) :
  StronglySorted (fun a b => lt b a = false) l ->
  StronglySorted (fun a b => lt b a = false) (Py.insert_by lt x l).
Proof.
  induction 1 as [|y l Hs IH Hy]; simpl.
  - repeat constructor.
  - destruct (lt y x) eqn:Hyx.
    + constructor; [exact IH|].
      eapply Permutation_Forall;
        [apply Permutation_sym, insert_by_perm|].
      constructor; [now apply lt_asym|exact Hy].
    + constructor; [now constructor|].
      constructor; [exact Hyx|].
      eapply Forall_impl; [|exact Hy].
      intros z Hzy. simpl in Hzy. now apply lt_negtrans with y.
Qed.

Lemma stable_sort_sorted (l : list A) :
  StronglySorted (fun a b => lt b a = false) (Py.stable_sort lt l).
Proof.
  induction l as [|x l IH]; simpl; [constructor|].
  now apply insert_by_sorted.
Qed.

(** A class of elements that [lt] does not separate from one another keeps
    its order. *)
Lemma stable_sort_stable (p : A -> bool) (l : list A) :
  (forall x y, p x = true -> p y = true -> lt y x = false) ->
  filter p (Py.stable_sort lt l) = filter p l.
Proof.
  intros Hclass.
  induction l as [|x l IH]; simpl; [reflexivity|].
  rewrite filter_insert_by.
  - simpl. now rewrite IH.
  - intros y _ Hyx Hx.
    destruct (p y) eqn:Hy; [|reflexivity].
    rewrite (Hclass x y Hx Hy) in Hyx. discriminate.
Qed.

End SortFacts.

Section ListSortFacts.
Context {A K : Type} (lt : K -> K -> bool) (key : A -> K).

Lemma list_sort_perm (reverse : bool) (l : list A) :
  Permutation (Py.list_sort lt key reverse l) l.
Proof.
  unfold Py.list_sort. destruct reverse.
  - eapply Permutation_trans; [apply Permutation_sym, Permutation_rev|].
    eapply Permutation_trans; [apply stable_sort_perm|].
    apply Permutation_sym, Permutation_rev.
  - apply stable_sort_perm.
Qed.

Hypothesis lt_asym : forall a b, lt a b = true -> lt b a = false.
Hypothesis lt_negtrans :
  forall a b c, lt a b = false -> lt b c = false -> lt a c = false.

Lemma list_sort_descending (l : list A) :
  StronglySorted (fun a b => lt (key a) (key b) = false)
    (Py.list_sort lt key true l).
Proof.
  unfold Py.list_sort.
  apply (StronglySorted_rev
           (fun a b => (fun a b => lt (key a) (key b)) b a = false)).
  apply stable_sort_sorted.
  - intros a b. apply lt_asym.
  - intros a b c. apply lt_negtrans.
Qed.

Lemma list_sort_reverse_stable (k : K) (l : list A) :
  filter (fun a => negb (lt k (key a)) && negb (lt (key a) k))
         (Py.list_sort lt key true l)
  = filter (fun a => negb (lt k (key a)) && negb (lt (key a) k)) l.
Proof.
  unfold Py.list_sort.
  rewrite filter_rev_comm, stable_sort_stable.
  - rewrite filter_rev_comm. apply rev_involutive.
  - intros x y Hx Hy.
    apply andb_true_iff in Hx, Hy.
    destruct Hx as [Hkx _], Hy as [_ Hyk].
    apply negb_true_iff in Hkx, Hyk.
    now apply lt_negtrans with k.
Qed.

End ListSortFacts.

(** ** The handler monad *)

Section MonadFacts.
Context `{Services}.

Lemma mapM_read {A B : Type} (ev : A -> Event) (g : A -> B) (xs : list A)
    (w : World) :
  mapM (fun t => read (ev t) (fun _ => g t)) xs w
  = (Ok (map g xs), w, map ev xs).
Proof.
  induction xs as [|x xs IH]; simpl; [reflexivity|].
  unfold bind at 1. unfold read at 1.
  unfold bind at 1. rewrite IH. unfold ret. simpl.
  now rewrite app_nil_r.
Qed.

End MonadFacts.

(** ** Combined-mode rescoring *)

Section Ranker.
Context `{Services}.

Lemma calculate_and_sort_run (result : list SearchResult.t)
    (model : AdvancedSearchModel.t Mode) (w : World) :
  let p := AdvancedSearchModel.extra_prompt model in
  let ocr_first :=
    Search.priority_is_ocr (AdvancedSearchModel.combined_priority model) in
  let v := if ocr_first then get_text_vector p else get_bert_vector p in
  Search.calculate_and_sort_by_combined_scores result model w
  = (Ok (Py.list_sort score_lt SearchResult.score true
           (map (Search.rescore v) result)),
     w,
     [if ocr_first then GetTextVector p else GetBertVector p]).
Proof.
  unfold Search.calculate_and_sort_by_combined_scores.
  destruct (Search.priority_is_ocr _); reflexivity.
Qed.

End Ranker.

(** C1, as amended.  Rescoring embeds the extra prompt exactly once, before
    the loop: with the vision-aligned text encoder ([get_text_vector]) when
    the combined priority is ocr, with the OCR-aligned one
    ([get_bert_vector]) otherwise; that one vector rescales every result. *)
Theorem extra_prompt_embedded_once `{Services}
    (result : list SearchResult.t) (model : AdvancedSearchModel.t Mode)
    (w : World) :
  let p := AdvancedSearchModel.extra_prompt model in
  let ocr_first :=
    Search.priority_is_ocr (AdvancedSearchModel.combined_priority model) in
  let v := if ocr_first then get_text_vector p else get_bert_vector p in
  let run := Search.calculate_and_sort_by_combined_scores result model w in
  filter is_encoder_call (trace_of run)
  = [if ocr_first then GetTextVector p else GetBertVector p]
  /\ exists out,
       result_of run = Ok out
       /\ Permutation out (map (Search.rescore v) result).
Proof.
  cbv zeta. rewrite calculate_and_sort_run. split.
  - unfold trace_of. simpl.
    destruct (Search.priority_is_ocr _); reflexivity.
  - eexists. split; [reflexivity|]. apply list_sort_perm.
Qed.

Section RankerRuns.
#[local] Existing Instance Demo.embedding.
#[local] Existing Instance Demo.services.

(** C1, as stated, fails: with combined priority ocr the extra prompt goes
    to the vision-aligned encoder, and the OCR-aligned one is not called. *)
Lemma extra_prompt_encoder_not_priority_aligned :
  let model :=
    AdvancedSearchModel.mk bool ["cat"] [] true
      (Some SearchCombinedPriorityEnum.ocr) (Some "outdoor") in
  let run :=
    Search.calculate_and_sort_by_combined_scores
      [Demo.hit "a" (Some 1%Z) None 2%Z] model (Demo.mkWorld [] [] [] 0) in
  trace_of run = [GetTextVector (Some "outdoor")]
  /\ ~ In (GetBertVector (Some "outdoor")) (trace_of run).
Proof.
  split; [reflexivity|].
  intros [Hin|[]]. discriminate Hin.
Qed.

(** The new score is not clamped: a record pointing away from the extra
    prompt gets a negative one. *)
Lemma rescored_score_can_be_negative :
  let model :=
    AdvancedSearchModel.mk bool ["cat"] [] true
      (Some SearchCombinedPriorityEnum.vision) (Some "outdoor") in
  result_of
    (Search.calculate_and_sort_by_combined_scores
       [Demo.hit "a" (Some 1%Z) None 3%Z] model (Demo.mkWorld [] [] [] 0))
  = Ok [Demo.hit "a" (Some 1%Z) None (-3)%Z].
Proof. reflexivity. Qed.

End RankerRuns.

(** C4.  Every result is compared by its image embedding when it has one
    and by its OCR-text embedding otherwise, and its new score is the cosine
    of that embedding and the extra-prompt vector times its old score; the
    product is stored as it is. *)
Theorem combined_score_is_cosine_times_original `{Services}
    (result : list SearchResult.t) (model : AdvancedSearchModel.t Mode)
    (w : World) :
  let p := AdvancedSearchModel.extra_prompt model in
  let v :=
    if Search.priority_is_ocr (AdvancedSearchModel.combined_priority model)
    then get_text_vector p else get_bert_vector p in
  let comparison (d : ImageData.t) :=
    match ImageData.image_vector d with
    | Some x => Some x
    | None => ImageData.text_contain_vector d
    end in
  exists out,
    result_of (Search.calculate_and_sort_by_combined_scores result model w)
    = Ok out
    /\ Permutation out
         (map (fun itm =>
                 SearchResult.mk _ (SearchResult.img itm)
                   (score_mul
                      (calculate_vectors_cosine
                         (comparison (SearchResult.img itm)) v)
                      (SearchResult.score itm)))
              result).
Proof.
  cbv zeta. rewrite calculate_and_sort_run.
  eexists. split; [reflexivity|]. apply list_sort_perm.
Qed.

(** C3.  When [<] on scores is a strict weak order, the rescored list comes
    back in descending order of the new score, and the results whose new
    scores are equal stand in the order the index returned them. *)
Theorem combined_rescoring_sorted_stable `{Services}
    (lt_asym : forall a b, score_lt a b = true -> score_lt b a = false)
    (lt_negtrans :
       forall a b c,
         score_lt a b = false -> score_lt b c = false -> score_lt a c = false)
    (result : list SearchResult.t) (model : AdvancedSearchModel.t Mode)
    (w : World) :
  let p := AdvancedSearchModel.extra_prompt model in
  let v :=
    if Search.priority_is_ocr (AdvancedSearchModel.combined_priority model)
    then get_text_vector p else get_bert_vector p in
  exists out,
    result_of (Search.calculate_and_sort_by_combined_scores result model w)
    = Ok out
    /\ StronglySorted
         (fun a b =>
            score_lt (SearchResult.score a) (SearchResult.score b) = false)
         out
    /\ Permutation out (map (Search.rescore v) result)
    /\ forall s,
         filter (fun r => score_eqv s (SearchResult.score r)) out
         = filter (fun r => score_eqv s (SearchResult.score r))
             (map (Search.rescore v) result).
Proof.
  cbv zeta. rewrite calculate_and_sort_run.
  eexists. split; [reflexivity|]. split; [|split].
  - now apply list_sort_descending.
  - apply list_sort_perm.
  - intros s. unfold score_eqv.
    now apply (list_sort_reverse_stable score_lt SearchResult.score).
Qed.

Section RankerWitness.
#[local] Existing Instance Demo.embedding.
#[local] Existing Instance Demo.services.

Lemma combined_rescoring_sorted_stable_witness :
  let model :=
    AdvancedSearchModel.mk bool ["cat"] [] true
      (Some SearchCombinedPriorityEnum.ocr) (Some "outdoor") in
  let result :=
    [Demo.hit "a" (Some 1%Z) None 2%Z; Demo.hit "b" (Some (-1)%Z) None 5%Z;
     Demo.hit "c" (Some 1%Z) None 2%Z; Demo.hit "d" None (Some 1%Z) 7%Z] in
  exists out,
    result_of
      (Search.calculate_and_sort_by_combined_scores
         result model (Demo.mkWorld [] [] [] 0))
    = Ok out
    /\ StronglySorted
         (fun a b =>
            Z.ltb (SearchResult.score a) (SearchResult.score b) = false)
         out
    /\ Permutation out (map (Search.rescore 1%Z) result)
    /\ forall s,
         filter (fun r => score_eqv s (SearchResult.score r)) out
         = filter (fun r => score_eqv s (SearchResult.score r))
             (map (Search.rescore 1%Z) result).
Proof.
  intros model result.
  apply (combined_rescoring_sorted_stable (H0 := Demo.services)).
  - intros a b Hab. simpl in *. apply Z.ltb_lt in Hab. apply Z.ltb_ge. lia.
  - intros a b c Hab Hbc. simpl in *.
    apply Z.ltb_ge in Hab, Hbc. apply Z.ltb_ge. lia.
Defined.

End RankerWitness.

(** ** Advanced search *)

#[local] Ltac run_monad :=
  unfold bind, read, write, draw, ret, raise, lift, try_except,
    result_of, world_of, trace_of; simpl.

Section AdvancedFacts.
Context `{Services}.

Lemma validate_combined_run (model : AdvancedSearchModel.t Mode)
    (b : SearchBasisEnum.t) (w : World) :
  (b = SearchBasisEnum.combined ->
   AdvancedSearchModel.combined_priority model <> None
   /\ AdvancedSearchModel.extra_prompt model <> None) ->
  Search.validate_combined model b w = (Ok tt, w, []).
Proof.
  intros Hok. unfold Search.validate_combined.
  destruct b; simpl; try reflexivity.
  destruct (Hok eq_refl) as [Hp He].
  destruct (AdvancedSearchModel.combined_priority model); [|congruence].
  destruct (AdvancedSearchModel.extra_prompt model); [|congruence].
  reflexivity.
Qed.

Lemma validate_combined_cases (model : AdvancedSearchModel.t Mode)
    (b : SearchBasisEnum.t) (w : World) :
  Search.validate_combined model b w = (Ok tt, w, [])
  \/ Search.validate_combined model b w
     = (Raise (HTTPException 422 validate_combined_detail), w, []).
Proof.
  unfold Search.validate_combined.
  destruct (SearchBasisEnum.eqb b SearchBasisEnum.combined); [|now left].
  destruct (AdvancedSearchModel.combined_priority model);
    destruct (AdvancedSearchModel.extra_prompt model);
    (now left) || (now right).
Qed.

Lemma embed_all_run (use_ocr : bool) (pos neg : list string) (w : World) :
  let enc t :=
    if use_ocr then get_bert_vector (Some t) else get_text_vector (Some t) in
  let call t :=
    if use_ocr then GetBertVector (Some t) else GetTextVector (Some t) in
  (if use_ocr then
     positive_vectors <- mapM (fun t => call_get_bert_vector (Some t)) pos ;;
     negative_vectors <- mapM (fun t => call_get_bert_vector (Some t)) neg ;;
     ret (positive_vectors, negative_vectors)
   else
     positive_vectors <- mapM (fun t => call_get_text_vector (Some t)) pos ;;
     negative_vectors <- mapM (fun t => call_get_text_vector (Some t)) neg ;;
     ret (positive_vectors, negative_vectors)) w
  = (Ok (map enc pos, map enc neg), w, map call pos ++ map call neg).
Proof.
  destruct use_ocr; cbv zeta;
    unfold call_get_bert_vector, call_get_text_vector;
    unfold bind at 1; rewrite mapM_read;
    unfold bind at 1; rewrite mapM_read;
    unfold ret; simpl; now rewrite app_nil_r.
Qed.

End AdvancedFacts.

(** C5.  In an advanced search that passes its checks, the effective basis
    is the combined priority under a combined basis and the requested basis
    otherwise; each criterion, positive then negative, goes once to the
    OCR-aligned encoder when the effective basis is ocr and to the
    vision-aligned one otherwise, and the index is queried with the two
    vector lists in the order of the criteria. *)
Theorem advanced_criteria_embedded_by_effective_basis `{Services}
    (model : AdvancedSearchModel.t Mode) (basis : SearchBasisParams.t)
    (paging : SearchPagingParams.t) (w : World) :
  let b := SearchBasisParams.basis basis in
  let effective :=
    match b with
    | SearchBasisEnum.combined =>
        option_map SearchCombinedPriorityEnum.as_basis
          (AdvancedSearchModel.combined_priority model)
    | _ => Some b
    end in
  let use_ocr :=
    match effective with
    | Some SearchBasisEnum.ocr => true
    | _ => false
    end in
  let enc t :=
    if use_ocr then get_bert_vector (Some t) else get_text_vector (Some t) in
  let call t :=
    if use_ocr then GetBertVector (Some t) else GetTextVector (Some t) in
  let pos := AdvancedSearchModel.criteria model in
  let neg := AdvancedSearchModel.negative_criteria model in
  (b = SearchBasisEnum.combined ->
   AdvancedSearchModel.combined_priority model <> None
   /\ AdvancedSearchModel.extra_prompt model <> None) ->
  pos ++ neg <> [] ->
  Search.current_basis model basis = effective
  /\ exists rest,
       trace_of (Search.advancedSearch model basis paging w)
       = map call pos ++ map call neg
         ++ QueryAdvanced (map enc pos) (map enc neg)
              (getVectorByBasis effective) (AdvancedSearchModel.mode model)
              (SearchPagingParams.count paging)
              (SearchPagingParams.skip paging)
            :: rest
       /\ Forall (fun e => is_index_query e = false) rest
       /\ (b <> SearchBasisEnum.combined -> rest = []).
Proof.
  intros b effective use_ocr enc call pos neg Hvalid Hnonempty.
  assert (Heff : Search.current_basis model basis = effective).
  { unfold Search.current_basis, effective. fold b. now destruct b. }
  split; [exact Heff|].
  assert (Hlen : Nat.eqb (List.length pos + List.length neg) 0 = false).
  { apply Nat.eqb_neq. intros Hz.
    rewrite <- length_app in Hz. apply length_zero_iff_nil in Hz.
    contradiction. }
  unfold Search.advancedSearch. fold b pos neg. rewrite Hlen, Heff.
  unfold bind at 1. rewrite (validate_combined_run model b w Hvalid).
  unfold bind at 1. fold use_ocr. unfold Search.is_ocr.
  change (match effective with
          | Some SearchBasisEnum.ocr => true
          | _ => false
          end) with use_ocr.
  rewrite (embed_all_run use_ocr pos neg w). cbv zeta. fold enc call.
  unfold bind at 1, call_queryAdvanced, read. simpl fst. simpl snd.
  destruct (SearchBasisEnum.eqb b SearchBasisEnum.combined) eqn:Hb.
  - unfold bind at 1. rewrite calculate_and_sort_run. cbv zeta.
    unfold call_uuid4. run_monad.
    eexists. split; [rewrite <- app_assoc; reflexivity|].
    split; [|intros Hn; destruct b; simpl in Hb; congruence].
    destruct (Search.priority_is_ocr _); repeat constructor.
  - unfold call_uuid4. run_monad.
    exists []. split; [rewrite <- app_assoc; reflexivity|].
    split; [constructor|reflexivity].
Qed.

Section AdvancedWitness.
#[local] Existing Instance Demo.embedding.
#[local] Existing Instance Demo.services.

Lemma advanced_criteria_embedded_by_effective_basis_witness :
  let model :=
    AdvancedSearchModel.mk bool ["cat"; "dog"] ["car"] true
      (Some SearchCombinedPriorityEnum.ocr) (Some "outdoor") in
  let basis := SearchBasisParams.mk SearchBasisEnum.combined in
  let paging := SearchPagingParams.mk 10 0 in
  let w := Demo.mkWorld [Demo.record "a" false None (Some 1%Z) None] [] [] 0 in
  Search.current_basis model basis = Some SearchBasisEnum.ocr
  /\ exists rest,
       trace_of (Search.advancedSearch model basis paging w)
       = [GetBertVector (Some "cat"); GetBertVector (Some "dog")]
         ++ [GetBertVector (Some "car")]
         ++ QueryAdvanced [(-1)%Z; (-1)%Z] [(-1)%Z] "text_contain_vector"
              true 10 0
            :: rest
       /\ Forall (fun e => is_index_query e = false) rest
       /\ (SearchBasisEnum.combined <> SearchBasisEnum.combined -> rest = []).
Proof.
  intros model basis paging w.
  apply (advanced_criteria_embedded_by_effective_basis
           (H0 := Demo.services) model basis paging w).
  - intros _. split; discriminate.
  - discriminate.
Defined.

End AdvancedWitness.

(** C6.  An advanced search whose two criteria lists are empty fails with
    status 422, whatever the basis and the mode, and has called neither an
    encoder nor the index by then. *)
Theorem advanced_empty_criteria_rejected `{Services}
    (model : AdvancedSearchModel.t Mode) (basis : SearchBasisParams.t)
    (paging : SearchPagingParams.t) (w : World) :
  AdvancedSearchModel.criteria model = [] ->
  AdvancedSearchModel.negative_criteria model = [] ->
  exists detail,
    Search.advancedSearch model basis paging w
    = (Raise (HTTPException 422 detail), w, []).
Proof.
  intros Hpos Hneg. unfold Search.advancedSearch.
  rewrite Hpos, Hneg. simpl.
  unfold bind.
  destruct (validate_combined_cases model (SearchBasisParams.basis basis) w)
    as [Hv|Hv]; rewrite Hv.
  - eexists. reflexivity.
  - eexists. reflexivity.
Qed.

Section EmptyCriteriaWitness.
#[local] Existing Instance Demo.embedding.
#[local] Existing Instance Demo.services.

Lemma advanced_empty_criteria_rejected_witness :
  exists detail,
    Search.advancedSearch
      (AdvancedSearchModel.mk bool [] [] false None None)
      (SearchBasisParams.mk SearchBasisEnum.ocr)
      (SearchPagingParams.mk 10 0)
      (Demo.mkWorld [Demo.record "a" false None (Some 1%Z) None] [] [] 0)
    = (Raise (HTTPException 422 detail),
       Demo.mkWorld [Demo.record "a" false None (Some 1%Z) None] [] [] 0,
       []).
Proof.
  apply (advanced_empty_criteria_rejected (H0 := Demo.services)
           (AdvancedSearchModel.mk bool [] [] false None None));
    reflexivity.
Defined.

End EmptyCriteriaWitness.

(** ** Random pick and image search *)

(** C9.  [randomPick] forwards only the count: its one query to the index
    carries the random vector and [top_k], no vector name and no skip, and
    two requests that differ only in [skip] run identically from the same
    world. *)
Theorem random_pick_ignores_skip `{Services}
    (p1 p2 : SearchPagingParams.t) (w : World) :
  SearchPagingParams.count p1 = SearchPagingParams.count p2 ->
  Search.randomPick p1 w = Search.randomPick p2 w
  /\ filter is_index_query (trace_of (Search.randomPick p1 w))
     = [QuerySearch (fst (get_random_vector w)) None
          (Some (SearchPagingParams.count p1)) None]
  /\ filter is_index_query (trace_of (Search.randomPick p2 w))
     = [QuerySearch (fst (get_random_vector w)) None
          (Some (SearchPagingParams.count p1)) None].
Proof.
  intros Hcount. unfold Search.randomPick. rewrite Hcount.
  split; [reflexivity|].
  unfold call_get_random_vector, call_querySearch, call_uuid4.
  run_monad. split; reflexivity.
Qed.

Section RandomWitness.
#[local] Existing Instance Demo.embedding.
#[local] Existing Instance Demo.services.

Lemma random_pick_ignores_skip_witness :
  let p1 := SearchPagingParams.mk 2 0 in
  let p2 := SearchPagingParams.mk 2 1 in
  let w :=
    Demo.mkWorld
      [Demo.record "a" false None (Some 1%Z) None;
       Demo.record "b" false None (Some (-1)%Z) None;
       Demo.record "c" false None (Some 1%Z) None] [] [] 0 in
  Search.randomPick p1 w = Search.randomPick p2 w
  /\ filter is_index_query (trace_of (Search.randomPick p1 w))
     = [QuerySearch 1%Z None (Some 2%Z) None]
  /\ filter is_index_query (trace_of (Search.randomPick p2 w))
     = [QuerySearch 1%Z None (Some 2%Z) None].
Proof.
  intros p1 p2 w.
  apply (random_pick_ignores_skip (H0 := Demo.services) p1 p2 w).
  reflexivity.
Defined.

End RandomWitness.

Section UploadFacts.
Context `{Services}.

Lemma dict_get_IMAGE_MIMES (k t : string) :
  Py.dict_get Admin.IMAGE_MIMES k = Some t -> t <> "".
Proof.
  unfold Admin.IMAGE_MIMES. simpl.
  repeat match goal with
         | |- (if ?c then _ else _) = _ -> _ => destruct c
         end;
    intros Heq; inversion Heq; discriminate.
Qed.

Lemma tail_of_extension (e : string) :
  Py.str_in e Admin.IMAGE_EXTENSIONS = true -> Py.tail e <> "".
Proof.
  unfold Py.str_in, Admin.IMAGE_EXTENSIONS. simpl. intros Hin.
  repeat (apply orb_true_iff in Hin; destruct Hin as [Hin|Hin];
          [apply String.eqb_eq in Hin; subst; discriminate|]).
  discriminate.
Qed.

(** A resolved format is never the empty string. *)
Lemma resolve_img_type_nonempty (image_file : UploadFile.t) (t : string) :
  Admin.resolve_img_type image_file = Some t -> t <> "".
Proof.
  unfold Admin.resolve_img_type.
  destruct (UploadFile.content_type image_file) as [ct|]; [|discriminate].
  destruct (Py.dict_get _ _) as [t'|] eqn:Hmime.
  - intros Heq. inversion Heq; subst. eapply dict_get_IMAGE_MIMES; eauto.
  - destruct (UploadFile.filename image_file) as [[|c fn]|]; try discriminate.
    destruct (Py.str_in _ _) eqn:Hext; [|discriminate].
    intros Heq. inversion Heq; subst. now apply tail_of_extension.
Qed.

Lemma resolved_has_content_type (image_file : UploadFile.t) (t : string) :
  Admin.resolve_img_type image_file = Some t ->
  UploadFile.content_type image_file <> None.
Proof.
  unfold Admin.resolve_img_type.
  destruct (UploadFile.content_type image_file); discriminate.
Qed.

Lemma upload_image_no_content_type (image_file : UploadFile.t)
    (model : UploadImageModel.t) (w : World) :
  UploadFile.content_type image_file = None ->
  Admin.upload_image image_file model w = (Raise AttributeError, w, []).
Proof.
  intros Hnone. unfold Admin.upload_image. now rewrite Hnone.
Qed.

Lemma upload_image_unsupported (image_file : UploadFile.t)
    (model : UploadImageModel.t) (w : World) :
  UploadFile.content_type image_file <> None ->
  Admin.resolve_img_type image_file = None ->
  Admin.upload_image image_file model w
  = (Raise (HTTPException 415 "Unsupported image format."), w, []).
Proof.
  intros Hct Hnone. unfold Admin.upload_image. rewrite Hnone.
  destruct (UploadFile.content_type image_file); [reflexivity|congruence].
Qed.

(** What [upload_image] does once the format is resolved and the index has
    answered the duplicate check. *)
Lemma upload_image_resolved (image_file : UploadFile.t)
    (model : UploadImageModel.t) (w : World) (t : string) :
  Admin.resolve_img_type image_file = Some t ->
  let img_bytes := UploadFile.contents image_file in
  let img_id := generate_uuid img_bytes in
  Admin.upload_image image_file model w
  = match validate_ids [img_id] w with
    | _ :: _ =>
        (Raise (HTTPException 409 (Admin.duplicate_detail img_id)), w,
         [ValidateIds [img_id]])
    | [] =>
        match Image_open img_bytes with
        | Raise UnidentifiedImageError =>
            (Raise (HTTPException 400 "Cannot open the image file."), w,
             [ValidateIds [img_id]])
        | Raise e => (Raise e, w, [ValidateIds [img_id]])
        | Ok image =>
            let image_data :=
              ImageData.mk _ img_id (UploadImageModel.url model)
                (UploadImageModel.thumbnail_url model)
                (UploadImageModel.local model)
                (UploadImageModel.categories model)
                (UploadImageModel.starred model)
                t (datetime_now w) None None in
            (Ok (mkImageUploadResponse "OK. Image added to upload queue."
                   img_id),
             upload_service_upload_image image image_data img_bytes
               (UploadImageModel.skip_ocr model) w,
             [ValidateIds [img_id];
              UploadImage image image_data img_bytes
                (UploadImageModel.skip_ocr model)])
        end
    end.
Proof.
  intros Hres. cbv zeta. unfold Admin.upload_image. rewrite Hres.
  pose proof (resolve_img_type_nonempty _ _ Hres) as Hne.
  pose proof (resolved_has_content_type _ _ Hres) as Hct.
  destruct (UploadFile.content_type image_file) as [ct|]; [|congruence].
  destruct t as [|c t]; [congruence|].
  unfold call_validate_ids, call_datetime_now, call_upload_image,
    Admin.cannot_open.
  run_monad.
  destruct (validate_ids _ w) as [|i rest]; simpl; [|reflexivity].
  destruct (Image_open _) as [image|e]; simpl; [reflexivity|].
  destruct e; reflexivity.
Qed.

End UploadFacts.

(** C10.  [imageSearch] opens the bytes outside any [try]: the
    [UnidentifiedImageError] that [Image.open] raises on bytes that are no
    image leaves the handler as it is, before any call to a collaborator,
    and is not an HTTP error; [upload_image] turns the same exception into
    the HTTP error 400. *)
Theorem image_search_decode_error_unhandled `{Services}
    (image : list Byte.byte) (paging : SearchPagingParams.t)
    (image_file : UploadFile.t) (model : UploadImageModel.t) (w : World) :
  Image_open image = Raise UnidentifiedImageError ->
  UploadFile.contents image_file = image ->
  Admin.resolve_img_type image_file <> None ->
  validate_ids [generate_uuid image] w = [] ->
  Search.imageSearch image paging w = (Raise UnidentifiedImageError, w, [])
  /\ status_of UnidentifiedImageError = None
  /\ result_of (Admin.upload_image image_file model w)
     = Raise (HTTPException 400 "Cannot open the image file.").
Proof.
  intros Hopen Hbytes Hres Hfresh. split; [|split].
  - unfold Search.imageSearch. unfold bind at 1, lift. now rewrite Hopen.
  - reflexivity.
  - destruct (Admin.resolve_img_type image_file) as [t|] eqn:Ht;
      [|congruence].
    rewrite (upload_image_resolved image_file model w t Ht). cbv zeta.
    rewrite Hbytes, Hfresh, Hopen. reflexivity.
Qed.

Section ImageSearchWitness.
#[local] Existing Instance Demo.embedding.
#[local] Existing Instance Demo.services.

Lemma image_search_decode_error_unhandled_witness :
  let w := Demo.mkWorld [] [] [] 0 in
  let image_file := UploadFile.mk (Some "image/png") (Some "x.png") [] in
  let model := UploadImageModel.mk None None false [] false false in
  Search.imageSearch [] (SearchPagingParams.mk 10 0) w
  = (Raise UnidentifiedImageError, w, [])
  /\ status_of UnidentifiedImageError = None
  /\ result_of (Admin.upload_image image_file model w)
     = Raise (HTTPException 400 "Cannot open the image file.").
Proof.
  intros w image_file model.
  apply (image_search_decode_error_unhandled (H0 := Demo.services)
           [] (SearchPagingParams.mk 10 0) image_file model w).
  - reflexivity.
  - reflexivity.
  - discriminate.
  - reflexivity.
Defined.

End ImageSearchWitness.

(** ** Upload *)

(** C2, as amended.  The format is resolved first.  An upload that
    declares a content type and whose bytes are already in the index fails
    with status 409, the detail ending in the content-addressed id, when its
    format resolves; it fails with status 415, without the index being
    asked, when it does not.  (An upload that declares no content type stops
    on [AttributeError] before either check.)  On every one of these paths
    the world is left as it was and no call that changes it is made. *)
Theorem upload_duplicate_after_format `{Services}
    (image_file : UploadFile.t) (model : UploadImageModel.t) (w : World) :
  let img_id := generate_uuid (UploadFile.contents image_file) in
  let run := Admin.upload_image image_file model w in
  validate_ids [img_id] w <> [] ->
  (Admin.resolve_img_type image_file <> None ->
   run = (Raise (HTTPException 409
                   ("The uploaded point is already contained in the database! entity id: "
                    ++ img_id)%string),
          w, [ValidateIds [img_id]]))
  /\ (UploadFile.content_type image_file <> None ->
      Admin.resolve_img_type image_file = None ->
      run = (Raise (HTTPException 415 "Unsupported image format."), w, []))
  /\ (UploadFile.content_type image_file = None ->
      run = (Raise AttributeError, w, []))
  /\ world_of run = w
  /\ Forall (fun e => is_mutation e = false) (trace_of run).
Proof.
  intros img_id run Hdup.
  assert (Hresolved :
            forall t, Admin.resolve_img_type image_file = Some t ->
                      run = (Raise (HTTPException 409
                                      (Admin.duplicate_detail img_id)),
                             w, [ValidateIds [img_id]])).
  { intros t Ht. unfold run.
    rewrite (upload_image_resolved image_file model w t Ht). cbv zeta.
    fold img_id. destruct (validate_ids [img_id] w); [congruence|reflexivity]. }
  split; [|split; [|split]].
  - destruct (Admin.resolve_img_type image_file) as [t|] eqn:Ht;
      [intros _; now apply (Hresolved t)|congruence].
  - intros Hct Hnone. now apply upload_image_unsupported.
  - intros Hnone. now apply upload_image_no_content_type.
  - destruct (Admin.resolve_img_type image_file) as [t|] eqn:Ht.
    + rewrite (Hresolved t eq_refl). split; [reflexivity|].
      repeat constructor.
    + destruct (UploadFile.content_type image_file) as [ct|] eqn:Hct.
      * unfold run.
        rewrite (upload_image_unsupported image_file model w)
          by (assumption || congruence).
        split; [reflexivity|constructor].
      * unfold run. rewrite (upload_image_no_content_type _ _ _ Hct).
        split; [reflexivity|constructor].
Qed.

Section UploadRuns.
#[local] Existing Instance Demo.embedding.
#[local] Existing Instance Demo.services.

Lemma upload_duplicate_after_format_witness :
  let image_file := UploadFile.mk (Some "image/png") (Some "ab.png") Demo.stored_bytes in
  let model := UploadImageModel.mk None None false [] false false in
  let run := Admin.upload_image image_file model Demo.stored_world in
  (Admin.resolve_img_type image_file <> None ->
   run = (Raise (HTTPException 409
                   "The uploaded point is already contained in the database! entity id: AB"),
          Demo.stored_world, [ValidateIds ["AB"]]))
  /\ (UploadFile.content_type image_file <> None ->
      Admin.resolve_img_type image_file = None ->
      run = (Raise (HTTPException 415 "Unsupported image format."),
             Demo.stored_world, []))
  /\ (UploadFile.content_type image_file = None ->
      run = (Raise AttributeError, Demo.stored_world, []))
  /\ world_of run = Demo.stored_world
  /\ Forall (fun e => is_mutation e = false) (trace_of run).
Proof.
  intros image_file model run.
  apply (upload_duplicate_after_format (H0 := Demo.services)
           image_file model Demo.stored_world).
  discriminate.
Defined.

(** C2, as stated, fails: bytes already in the index, sent with a content
    type and a file name outside the allow-lists, are refused with status
    415; the index is not asked about them. *)
Lemma upload_duplicate_unsupported_format_is_415 :
  let image_file :=
    UploadFile.mk (Some "application/octet-stream") (Some "ab.bin") Demo.stored_bytes in
  let model := UploadImageModel.mk None None false [] false false in
  validate_ids [generate_uuid Demo.stored_bytes] Demo.stored_world = ["AB"]
  /\ Admin.upload_image image_file model Demo.stored_world
     = (Raise (HTTPException 415 "Unsupported image format."),
        Demo.stored_world, []).
Proof. split; reflexivity. Qed.

End UploadRuns.

(** ** Moderation *)

Section DeleteFacts.
Context `{Services}.

(** [delete_image] once the record has been retrieved. *)
Lemma delete_image_found_run (image_id : string) (point : ImageData.t)
    (w : World) :
  retrieve_by_id image_id w = Some point ->
  let w1 := deleteItems [ImageData.id point] w in
  let files :=
    if ImageData.local point && config_storage_method_enabled
    then Admin.delete_local_files point else ret tt in
  Admin.delete_image image_id w
  = match files w1 with
    | (Ok _, w2, t2) =>
        (Ok (mkNekoProtocol "Image deleted."), w2,
         RetrieveById image_id :: DeleteItems [ImageData.id point] :: t2)
    | (Raise e, w2, t2) =>
        (Raise e, w2,
         RetrieveById image_id :: DeleteItems [ImageData.id point] :: t2)
    end.
Proof.
  intros Hfound w1 files.
  unfold Admin.delete_image, call_retrieve_by_id, call_deleteItems.
  unfold bind at 1, try_except. rewrite Hfound.
  unfold bind at 1, write. fold w1.
  unfold bind at 1. fold files.
  destruct (files w1) as [[[u|e] w2] t2]; [|reflexivity].
  unfold ret. simpl. now rewrite app_nil_r.
Qed.

Lemma delete_local_files_run (point : ImageData.t) (w : World) :
  let pattern := (ImageData.id point ++ ".*")%string in
  let thumbnail_file :=
    ("thumbnails/" ++ ImageData.id point ++ ".webp")%string in
  let after_thumbnail w' :=
    match ImageData.thumbnail_url point with
    | Some _ => if is_exist thumbnail_file w' then delete thumbnail_file w'
                else w'
    | None => w'
    end in
  Admin.delete_local_files point w
  = match map fst (list_files "" pattern w) with
    | [] =>
        (Ok tt, after_thumbnail w,
         ListFiles "" pattern :: thumbnail_calls point w)
    | [f] =>
        let target := ("_deleted/" ++ Py.path_name f)%string in
        (Ok tt, after_thumbnail (move f target w),
         ListFiles "" pattern :: Move f target
         :: thumbnail_calls point (move f target w))
    | _ :: _ :: _ => (Raise AssertionError, w, [ListFiles "" pattern])
    end.
Proof.
  cbv zeta.
  unfold Admin.delete_local_files, thumbnail_calls, call_list_files,
    call_move, call_is_exist, call_delete.
  unfold bind at 1, read at 1.
  destruct (map fst (list_files "" _ w)) as [|f [|g rest]];
    simpl Nat.leb; cbv iota.
  - destruct (ImageData.thumbnail_url point); run_monad;
      [destruct (is_exist _ w)|]; reflexivity.
  - destruct (ImageData.thumbnail_url point); run_monad;
      [destruct (is_exist _ (move f _ w))|]; reflexivity.
  - reflexivity.
Qed.

End DeleteFacts.

(** C7.  For a local record with local storage enabled, [delete_image]
    lists the files named after the id once the index entry is gone.  With
    more than one match it stops on the failed assertion, having moved and
    deleted nothing.  With exactly one it moves that file under [_deleted/]
    and deletes no file but the thumbnail: the world it leaves is the one
    the move produces, less the thumbnail if there was one.  A file is
    moved only when it is the single match, and the handler completes only
    when there was at most one. *)
Theorem delete_local_image_moves_single_match `{Services}
    (image_id : string) (point : ImageData.t) (w : World) :
  let id := ImageData.id point in
  let w1 := deleteItems [id] w in
  let image_files := map fst (list_files "" (id ++ ".*")%string w1) in
  let found :=
    [RetrieveById image_id; DeleteItems [id];
     ListFiles "" (id ++ ".*")%string] in
  let thumbnail_file := ("thumbnails/" ++ id ++ ".webp")%string in
  let run := Admin.delete_image image_id w in
  retrieve_by_id image_id w = Some point ->
  ImageData.local point = true ->
  config_storage_method_enabled = true ->
  (1 < List.length image_files -> run = (Raise AssertionError, w1, found))
  /\ (forall f,
        image_files = [f] ->
        let target := ("_deleted/" ++ Py.path_name f)%string in
        let w2 := move f target w1 in
        run
        = (Ok (mkNekoProtocol "Image deleted."),
           match ImageData.thumbnail_url point with
           | None => w2
           | Some _ =>
               if is_exist thumbnail_file w2 then delete thumbnail_file w2
               else w2
           end,
           found ++ Move f target
             :: match ImageData.thumbnail_url point with
                | None => []
                | Some _ =>
                    IsExist thumbnail_file
                    :: (if is_exist thumbnail_file w2
                        then [Delete thumbnail_file] else [])
                end))
  /\ (forall src dst,
        In (Move src dst) (trace_of run) ->
        image_files = [src] /\ dst = ("_deleted/" ++ Py.path_name src)%string)
  /\ (forall r, result_of run = Ok r -> List.length image_files <= 1).
Proof.
  intros id w1 image_files found thumbnail_file run Hfound Hlocal Hconf.
  assert (Hrun :
            run = match Admin.delete_local_files point w1 with
                  | (Ok _, w2, t2) =>
                      (Ok (mkNekoProtocol "Image deleted."), w2,
                       RetrieveById image_id :: DeleteItems [id] :: t2)
                  | (Raise e, w2, t2) =>
                      (Raise e, w2,
                       RetrieveById image_id :: DeleteItems [id] :: t2)
                  end).
  { unfold run. rewrite (delete_image_found_run image_id point w Hfound).
    cbv zeta. rewrite Hlocal, Hconf. reflexivity. }
  rewrite delete_local_files_run in Hrun. cbv zeta in Hrun.
  fold id thumbnail_file image_files in Hrun.
  assert (Hthumb : forall w' src dst,
            ~ In (Move src dst) (thumbnail_calls point w')).
  { intros w' src dst. unfold thumbnail_calls.
    destruct (ImageData.thumbnail_url point); [|intros []].
    destruct (is_exist _ w'); simpl; intuition discriminate. }
  split; [|split; [|split]].
  - intros Hmany. rewrite Hrun.
    destruct image_files as [|f [|g rest]]; simpl in Hmany; try lia.
    reflexivity.
  - intros f Hone target w2. rewrite Hrun, Hone.
    unfold thumbnail_calls. fold id thumbnail_file target w2.
    destruct (ImageData.thumbnail_url point); [|reflexivity].
    destruct (is_exist thumbnail_file w2); reflexivity.
  - intros src dst Hin. rewrite Hrun in Hin.
    destruct image_files as [|f [|g rest]]; unfold trace_of in Hin;
      simpl in Hin.
    + destruct Hin as [Hin|[Hin|[Hin|Hin]]]; try discriminate.
      now apply Hthumb in Hin.
    + destruct Hin as [Hin|[Hin|[Hin|[Hin|Hin]]]]; try discriminate.
      * inversion Hin; subst. split; reflexivity.
      * now apply Hthumb in Hin.
    + destruct Hin as [Hin|[Hin|[Hin|[]]]]; discriminate.
  - intros r Hok. rewrite Hrun in Hok.
    destruct image_files as [|f [|g rest]]; simpl; try lia.
    discriminate Hok.
Qed.

Section DeleteWitness.
#[local] Existing Instance Demo.embedding.
#[local] Existing Instance Demo.services.

Lemma delete_local_image_moves_single_match_witness :
  let found :=
    [RetrieveById "AB"; DeleteItems ["AB"]; ListFiles "" "AB.*"] in
  let w1 :=
    Demo.mkWorld [] ["AB.png"; "CD.png"; "thumbnails/AB.webp"] [] 0 in
  let image_files := map fst (list_files "" "AB.*" w1) in
  let run := Admin.delete_image "AB" Demo.one_file_world in
  (1 < List.length image_files -> run = (Raise AssertionError, w1, found))
  /\ (forall f,
        image_files = [f] ->
        let target := ("_deleted/" ++ Py.path_name f)%string in
        let w2 := move f target w1 in
        run
        = (Ok (mkNekoProtocol "Image deleted."),
           if is_exist "thumbnails/AB.webp" w2
           then delete "thumbnails/AB.webp" w2 else w2,
           found ++ Move f target
             :: IsExist "thumbnails/AB.webp"
             :: (if is_exist "thumbnails/AB.webp" w2
                 then [Delete "thumbnails/AB.webp"] else [])))
  /\ (forall src dst,
        In (Move src dst) (trace_of run) ->
        image_files = [src] /\ dst = ("_deleted/" ++ Py.path_name src)%string)
  /\ (forall r, result_of run = Ok r -> List.length image_files <= 1).
Proof.
  intros found w1 image_files run.
  apply (delete_local_image_moves_single_match (H0 := Demo.services)
           "AB" Demo.local_record Demo.one_file_world);
    reflexivity.
Defined.

(** The two runs, evaluated: one match is moved, two matches raise. *)
Lemma delete_image_one_match_run :
  Admin.delete_image "AB" Demo.one_file_world
  = (Ok (mkNekoProtocol "Image deleted."),
     Demo.mkWorld [] ["_deleted/AB.png"; "CD.png"] [] 0,
     [RetrieveById "AB"; DeleteItems ["AB"]; ListFiles "" "AB.*";
      Move "AB.png" "_deleted/AB.png"; IsExist "thumbnails/AB.webp";
      Delete "thumbnails/AB.webp"]).
Proof. reflexivity. Qed.

Lemma delete_image_two_matches_run :
  Admin.delete_image "AB" Demo.two_files_world
  = (Raise AssertionError,
     Demo.mkWorld [] ["AB.png"; "AB.jpg"; "thumbnails/AB.webp"] [] 0,
     [RetrieveById "AB"; DeleteItems ["AB"]; ListFiles "" "AB.*"]).
Proof. reflexivity. Qed.

End DeleteWitness.

(** C8.  [update_image] refuses a model with no field present with status
    422 before it reads or writes the index: no call is made and the world
    is unchanged.  With a field present and the record found, the payload
    written is the record retrieved with [starred] and [categories] replaced
    where the model has them; every other field is as retrieved. *)
Theorem update_opt_empty_rejected_before_io `{Services}
    (image_id : string) (model : ImageOptUpdateModel.t) (w : World) :
  (ImageOptUpdateModel.starred model = None ->
   ImageOptUpdateModel.categories model = None ->
   Admin.update_image image_id model w
   = (Raise (HTTPException 422 "Nothing to update."), w, []))
  /\ (forall point,
        ImageOptUpdateModel.empty model = false ->
        retrieve_by_id image_id w = Some point ->
        exists written,
          Admin.update_image image_id model w
          = (Ok (mkNekoProtocol "Image updated."), updatePayload written w,
             [RetrieveById image_id; UpdatePayload written])
          /\ ImageData.starred written
             = match ImageOptUpdateModel.starred model with
               | Some v => v
               | None => ImageData.starred point
               end
          /\ ImageData.categories written
             = match ImageOptUpdateModel.categories model with
               | Some v => v
               | None => ImageData.categories point
               end
          /\ ImageData.id written = ImageData.id point
          /\ ImageData.url written = ImageData.url point
          /\ ImageData.thumbnail_url written = ImageData.thumbnail_url point
          /\ ImageData.local written = ImageData.local point
          /\ ImageData.format written = ImageData.format point
          /\ ImageData.index_date written = ImageData.index_date point
          /\ ImageData.image_vector written = ImageData.image_vector point
          /\ ImageData.text_contain_vector written
             = ImageData.text_contain_vector point).
Proof.
  split.
  - intros Hs Hc. unfold Admin.update_image, ImageOptUpdateModel.empty.
    now rewrite Hs, Hc.
  - intros point Hnonempty Hfound.
    unfold Admin.update_image. rewrite Hnonempty.
    unfold call_retrieve_by_id, call_updatePayload. run_monad.
    rewrite Hfound. simpl.
    eexists. split; [reflexivity|].
    destruct (ImageOptUpdateModel.starred model);
      destruct (ImageOptUpdateModel.categories model);
      repeat split; reflexivity.
Qed.

Section UpdateWitness.
#[local] Existing Instance Demo.embedding.
#[local] Existing Instance Demo.services.

Lemma update_opt_empty_rejected_before_io_witness :
  Admin.update_image "AB" (ImageOptUpdateModel.mk None None)
    Demo.stored_world
  = (Raise (HTTPException 422 "Nothing to update."), Demo.stored_world, [])
  /\ exists written,
       Admin.update_image "AB" (ImageOptUpdateModel.mk (Some true) None)
         Demo.stored_world
       = (Ok (mkNekoProtocol "Image updated."),
          updatePayload written Demo.stored_world,
          [RetrieveById "AB"; UpdatePayload written])
       /\ ImageData.starred written = true
       /\ ImageData.categories written = [].
Proof.
  split.
  - apply (update_opt_empty_rejected_before_io (H0 := Demo.services)
             "AB" (ImageOptUpdateModel.mk None None) Demo.stored_world);
      reflexivity.
  - destruct
      (proj2 (update_opt_empty_rejected_before_io (H0 := Demo.services)
                "AB" (ImageOptUpdateModel.mk (Some true) None)
                Demo.stored_world)
             (Demo.record "AB" false None (Some 1%Z) None)
             eq_refl eq_refl)
      as [written [Hrun [Hs [Hc _]]]].
    exists written. repeat split; assumption.
Defined.

End UpdateWitness.

(** * Further properties of the controllers *)

(** ** The basis resolver *)

(** X1.  [SearchBasisParams] accepts a basis exactly when it is vision or
    OCR search is enabled; it then holds that basis, and every refusal is an
    HTTP error 400. *)
Theorem basis_params_accept_iff `{Services} (b : SearchBasisEnum.t) :
  (Search.SearchBasisParams_init b = Ok (SearchBasisParams.mk b)
   <-> b = SearchBasisEnum.vision \/ config_ocr_search_enable = true)
  /\ (forall p, Search.SearchBasisParams_init b = Ok p ->
                SearchBasisParams.basis p = b)
  /\ (forall e, Search.SearchBasisParams_init b = Raise e ->
                status_of e = Some 400%Z).
Proof.
  unfold Search.SearchBasisParams_init.
  destruct b, config_ocr_search_enable; simpl;
    (split; [split; [intros Heq; try discriminate Heq; auto
                    |intros [Hb|Hc]; try discriminate; reflexivity]
            |split; [intros p Heq; inversion Heq; reflexivity
                    |intros e Heq; inversion Heq; reflexivity]]).
Qed.

(** ** Read-only handlers *)

Section ReadOnlyFacts.
Context `{Services}.

Lemma trace_of_bind {A B : Type} (m : M A) (f : A -> M B) (w : World) :
  trace_of (bind m f w)
  = match m w with
    | (Ok a, w1, t1) => t1 ++ trace_of (f a w1)
    | (Raise _, _, t1) => t1
    end.
Proof.
  unfold bind, trace_of.
  destruct (m w) as [[[a|e] w1] t1]; simpl; [|reflexivity].
  now destruct (f a w1) as [[r w2] t2].
Qed.

Lemma read_only_ret {A : Type} (a : A) : read_only (ret a).
Proof. intros w. constructor. Qed.

Lemma read_only_raise {A : Type} (e : exn) : read_only (raise (A := A) e).
Proof. intros w. constructor. Qed.

Lemma read_only_lift {A : Type} (r : Res A) : read_only (lift r).
Proof. intros w. constructor. Qed.

Lemma read_only_read {A : Type} (ev : Event) (f : World -> A) :
  is_mutation ev = false -> read_only (read ev f).
Proof. intros Hev w. now repeat constructor. Qed.

Lemma read_only_draw {A : Type} (ev : list Event) (f : World -> A * World) :
  Forall (fun e => is_mutation e = false) ev -> read_only (draw ev f).
Proof. intros Hev w. exact Hev. Qed.

Lemma read_only_bind {A B : Type} (m : M A) (f : A -> M B) :
  read_only m -> (forall a, read_only (f a)) -> read_only (bind m f).
Proof.
  intros Hm Hf w. rewrite trace_of_bind.
  specialize (Hm w). unfold trace_of in Hm.
  destruct (m w) as [[[a|e] w1] t1]; simpl in *; [|exact Hm].
  apply Forall_app. split; [exact Hm|apply Hf].
Qed.

Lemma read_only_mapM {A B : Type} (f : A -> M B) (xs : list A) :
  (forall x, read_only (f x)) -> read_only (mapM f xs).
Proof.
  intros Hf. induction xs as [|x xs IH]; simpl.
  - apply read_only_ret.
  - apply read_only_bind; [apply Hf|]. intros y.
    apply read_only_bind; [exact IH|]. intros ys. apply read_only_ret.
Qed.

Lemma read_only_validate_combined (model : AdvancedSearchModel.t Mode)
    (b : SearchBasisEnum.t) :
  read_only (Search.validate_combined model b).
Proof.
  unfold Search.validate_combined.
  destruct (SearchBasisEnum.eqb _ _); [|apply read_only_ret].
  destruct (AdvancedSearchModel.combined_priority model);
    destruct (AdvancedSearchModel.extra_prompt model);
    apply read_only_ret || apply read_only_raise.
Qed.

Lemma read_only_rescoring (result : list SearchResult.t)
    (model : AdvancedSearchModel.t Mode) :
  read_only (Search.calculate_and_sort_by_combined_scores result model).
Proof.
  unfold Search.calculate_and_sort_by_combined_scores.
  apply read_only_bind; [|intros v; apply read_only_ret].
  destruct (Search.priority_is_ocr _); now apply read_only_read.
Qed.

End ReadOnlyFacts.

#[local] Ltac read_only_step :=
  first
    [ apply read_only_ret
    | apply read_only_raise
    | apply read_only_lift
    | apply read_only_validate_combined
    | apply read_only_rescoring
    | apply read_only_read; reflexivity
    | apply read_only_draw; repeat constructor
    | apply read_only_mapM; intros ?
    | apply read_only_bind; [|intros ?]
    | match goal with
      | |- read_only (if ?c then _ else _) => destruct c
      end ].

(** X2.  No handler of the search controller ever calls an operation that
    changes the index, the storage or the upload queue, whatever the request
    and whether it succeeds or fails. *)
Theorem search_handlers_read_only `{Services}
    (prompt id queryId : string) (image : list Byte.byte)
    (model : AdvancedSearchModel.t Mode) (basis : SearchBasisParams.t)
    (paging : SearchPagingParams.t) :
  read_only (Search.textSearch prompt basis paging)
  /\ read_only (Search.imageSearch image paging)
  /\ read_only (Search.similarWith id basis paging)
  /\ read_only (Search.advancedSearch model basis paging)
  /\ read_only (Search.randomPick paging)
  /\ read_only (Search.recallQuery queryId).
Proof.
  repeat split.
  - unfold Search.textSearch, call_get_text_vector, call_get_bert_vector,
      call_querySearch, call_uuid4.
    repeat read_only_step.
  - unfold Search.imageSearch, call_get_image_vector, call_querySearch,
      call_uuid4.
    repeat read_only_step.
  - unfold Search.similarWith, call_querySimilar, call_uuid4.
    repeat read_only_step.
  - unfold Search.advancedSearch, call_get_text_vector, call_get_bert_vector,
      call_queryAdvanced, call_uuid4.
    repeat read_only_step.
  - unfold Search.randomPick, call_get_random_vector, call_querySearch,
      call_uuid4.
    repeat read_only_step.
  - unfold Search.recallQuery. repeat read_only_step.
Qed.

(** ** Paging *)

(** X3.  Text, image and similarity search each query the index once and
    hand it both paging values as given; the similarity search embeds
    nothing, and the image search names no vector field. *)
Theorem paging_forwarded_to_index `{Services}
    (prompt id : string) (image : list Byte.byte) (img : Image)
    (basis : SearchBasisParams.t) (paging : SearchPagingParams.t)
    (w : World) :
  let count := SearchPagingParams.count paging in
  let skip := SearchPagingParams.skip paging in
  let field := getVectorByBasis (Some (SearchBasisParams.basis basis)) in
  Image_open image = Ok img ->
  (exists v,
     filter is_index_query (trace_of (Search.textSearch prompt basis paging w))
     = [QuerySearch v (Some field) (Some count) (Some skip)])
  /\ trace_of (Search.imageSearch image paging w)
     = [GetImageVector img;
        QuerySearch (get_image_vector img) None (Some count) (Some skip)]
  /\ trace_of (Search.similarWith id basis paging w)
     = [QuerySimilar id count skip field].
Proof.
  intros count skip field Hopen. split; [|split].
  - unfold Search.textSearch, call_get_text_vector, call_get_bert_vector,
      call_querySearch, call_uuid4.
    destruct (SearchBasisEnum.eqb _ _); run_monad; eexists; reflexivity.
  - unfold Search.imageSearch, call_get_image_vector, call_querySearch,
      call_uuid4.
    run_monad. rewrite Hopen. reflexivity.
  - unfold Search.similarWith, call_querySimilar, call_uuid4.
    run_monad. reflexivity.
Qed.

Section PagingWitness.
#[local] Existing Instance Demo.embedding.
#[local] Existing Instance Demo.services.

Lemma paging_forwarded_to_index_witness :
  let basis := SearchBasisParams.mk SearchBasisEnum.ocr in
  let paging := SearchPagingParams.mk 5 2 in
  let w := Demo.stored_world in
  (exists v,
     filter is_index_query (trace_of (Search.textSearch "cat" basis paging w))
     = [QuerySearch v (Some "text_contain_vector") (Some 5%Z) (Some 2%Z)])
  /\ trace_of (Search.imageSearch Demo.stored_bytes paging w)
     = [GetImageVector Demo.stored_bytes;
        QuerySearch 1%Z None (Some 5%Z) (Some 2%Z)]
  /\ trace_of (Search.similarWith "AB" basis paging w)
     = [QuerySimilar "AB" 5 2 "text_contain_vector"].
Proof.
  intros basis paging w.
  apply (paging_forwarded_to_index (H0 := Demo.services)
           "cat" "AB" Demo.stored_bytes Demo.stored_bytes basis paging w).
  reflexivity.
Defined.

End PagingWitness.

(** ** Advanced search, end to end *)

Section AdvancedRuns.
Context `{Services}.

Lemma criteria_not_both_empty (pos neg : list string) :
  pos ++ neg <> [] -> Nat.eqb (List.length pos + List.length neg) 0 = false.
Proof.
  intros Hne. apply Nat.eqb_neq. intros Hz.
  rewrite <- length_app in Hz. apply length_zero_iff_nil in Hz.
  contradiction.
Qed.

(** The run of [advancedSearch] on a basis that is not combined. *)
Lemma advancedSearch_plain_run (model : AdvancedSearchModel.t Mode)
    (basis : SearchBasisParams.t) (paging : SearchPagingParams.t)
    (w : World) :
  let b := SearchBasisParams.basis basis in
  let use_ocr := SearchBasisEnum.eqb b SearchBasisEnum.ocr in
  let enc t :=
    if use_ocr then get_bert_vector (Some t) else get_text_vector (Some t) in
  let call t :=
    if use_ocr then GetBertVector (Some t) else GetTextVector (Some t) in
  let pos := AdvancedSearchModel.criteria model in
  let neg := AdvancedSearchModel.negative_criteria model in
  let hits :=
    queryAdvanced (map enc pos) (map enc neg) (getVectorByBasis (Some b))
      (AdvancedSearchModel.mode model) (SearchPagingParams.count paging)
      (SearchPagingParams.skip paging) w in
  b <> SearchBasisEnum.combined ->
  pos ++ neg <> [] ->
  Search.advancedSearch model basis paging w
  = (Ok (mkSearchApiResponse hits
           (Search.results_message (List.length hits)) (fst (uuid4 w))),
     snd (uuid4 w),
     map call pos ++ map call neg
     ++ [QueryAdvanced (map enc pos) (map enc neg)
           (getVectorByBasis (Some b)) (AdvancedSearchModel.mode model)
           (SearchPagingParams.count paging)
           (SearchPagingParams.skip paging)]).
Proof.
  destruct basis as [b0]. simpl SearchBasisParams.basis.
  intros b use_ocr enc call pos neg hits Hb Hne.
  unfold Search.advancedSearch. simpl SearchBasisParams.basis.
  fold b pos neg.
  rewrite (criteria_not_both_empty pos neg Hne).
  unfold bind at 1.
  rewrite (validate_combined_run model b w) by (intros Hc; contradiction).
  assert (Hcomb : SearchBasisEnum.eqb b SearchBasisEnum.combined = false).
  { unfold b in *. destruct b0; simpl; congruence. }
  assert (Heff :
            Search.current_basis model (SearchBasisParams.mk b) = Some b).
  { unfold Search.current_basis. simpl SearchBasisParams.basis. fold b.
    now rewrite Hcomb. }
  rewrite Heff.
  assert (Hocr : Search.is_ocr (Some b) = use_ocr).
  { unfold use_ocr, b. now destruct b0. }
  rewrite Hocr.
  unfold bind at 1. rewrite (embed_all_run use_ocr pos neg w). cbv zeta.
  fold enc call.
  rewrite Hcomb.
  unfold call_queryAdvanced, call_uuid4. run_monad. fold hits.
  now rewrite <- app_assoc.
Qed.

(** The run of [advancedSearch] on the combined basis, for a model that has
    the priority and the extra prompt. *)
Lemma advancedSearch_combined_run (model : AdvancedSearchModel.t Mode)
    (basis : SearchBasisParams.t) (paging : SearchPagingParams.t)
    (w : World) (priority : SearchCombinedPriorityEnum.t) (extra : string) :
  let ocr_first :=
    SearchCombinedPriorityEnum.eqb priority SearchCombinedPriorityEnum.ocr in
  let enc t :=
    if ocr_first then get_bert_vector (Some t) else get_text_vector (Some t) in
  let call t :=
    if ocr_first then GetBertVector (Some t) else GetTextVector (Some t) in
  let v :=
    if ocr_first then get_text_vector (Some extra)
    else get_bert_vector (Some extra) in
  let pos := AdvancedSearchModel.criteria model in
  let neg := AdvancedSearchModel.negative_criteria model in
  let field :=
    getVectorByBasis (Some (SearchCombinedPriorityEnum.as_basis priority)) in
  let hits :=
    queryAdvanced (map enc pos) (map enc neg) field
      (AdvancedSearchModel.mode model) (SearchPagingParams.count paging)
      (SearchPagingParams.skip paging) w in
  let out :=
    Py.list_sort score_lt SearchResult.score true
      (map (Search.rescore v) hits) in
  SearchBasisParams.basis basis = SearchBasisEnum.combined ->
  AdvancedSearchModel.combined_priority model = Some priority ->
  AdvancedSearchModel.extra_prompt model = Some extra ->
  pos ++ neg <> [] ->
  Search.advancedSearch model basis paging w
  = (Ok (mkSearchApiResponse out
           (Search.results_message (List.length out)) (fst (uuid4 w))),
     snd (uuid4 w),
     map call pos ++ map call neg
     ++ [QueryAdvanced (map enc pos) (map enc neg) field
           (AdvancedSearchModel.mode model)
           (SearchPagingParams.count paging)
           (SearchPagingParams.skip paging);
         if ocr_first then GetTextVector (Some extra)
         else GetBertVector (Some extra)]).
Proof.
  intros ocr_first enc call v pos neg field hits out Hb Hp He Hne.
  unfold Search.advancedSearch. fold pos neg.
  rewrite (criteria_not_both_empty pos neg Hne), Hb.
  unfold bind at 1.
  rewrite (validate_combined_run model SearchBasisEnum.combined w)
    by (intros _; rewrite Hp, He; split; discriminate).
  assert (Heff :
            Search.current_basis model basis
            = Some (SearchCombinedPriorityEnum.as_basis priority)).
  { unfold Search.current_basis. now rewrite Hb, Hp. }
  rewrite Heff.
  assert (Hocr :
            Search.is_ocr
              (Some (SearchCombinedPriorityEnum.as_basis priority))
            = ocr_first).
  { unfold ocr_first. now destruct priority. }
  rewrite Hocr.
  unfold bind at 1. rewrite (embed_all_run ocr_first pos neg w). cbv zeta.
  fold enc call.
  unfold bind at 1, call_queryAdvanced, read. simpl fst. simpl snd.
  fold field hits.
  simpl SearchBasisEnum.eqb. cbv iota.
  unfold bind at 1. rewrite calculate_and_sort_run. cbv zeta.
  rewrite Hp, He.
  assert (Hprio : Search.priority_is_ocr (Some priority) = ocr_first).
  { unfold ocr_first. now destruct priority. }
  rewrite Hprio. fold v out.
  unfold call_uuid4. run_monad.
  rewrite <- app_assoc. simpl. reflexivity.
Qed.

End AdvancedRuns.

(** X4.  On a vision or ocr basis an advanced search returns the results
    exactly as the index ranked them, reports their number in the message,
    and calls no encoder but the one for the criteria. *)
Theorem advanced_plain_keeps_index_ranking `{Services}
    (model : AdvancedSearchModel.t Mode) (basis : SearchBasisParams.t)
    (paging : SearchPagingParams.t) (w : World) :
  let b := SearchBasisParams.basis basis in
  let use_ocr := SearchBasisEnum.eqb b SearchBasisEnum.ocr in
  let enc t :=
    if use_ocr then get_bert_vector (Some t) else get_text_vector (Some t) in
  let pos := AdvancedSearchModel.criteria model in
  let neg := AdvancedSearchModel.negative_criteria model in
  let hits :=
    queryAdvanced (map enc pos) (map enc neg) (getVectorByBasis (Some b))
      (AdvancedSearchModel.mode model) (SearchPagingParams.count paging)
      (SearchPagingParams.skip paging) w in
  b <> SearchBasisEnum.combined ->
  pos ++ neg <> [] ->
  result_of (Search.advancedSearch model basis paging w)
  = Ok (mkSearchApiResponse hits
          (Search.results_message (List.length hits)) (fst (uuid4 w)))
  /\ List.length
       (filter is_encoder_call
          (trace_of (Search.advancedSearch model basis paging w)))
     = List.length pos + List.length neg.
Proof.
  intros b use_ocr enc pos neg hits Hb Hne.
  rewrite (advancedSearch_plain_run model basis paging w Hb Hne).
  split; [reflexivity|].
  unfold trace_of. simpl snd. fold b use_ocr pos neg.
  rewrite !filter_app, !length_app. simpl.
  assert (Hall : forall l : list string,
            List.length
              (filter is_encoder_call
                 (map (fun t => if use_ocr then GetBertVector (Some t)
                                else GetTextVector (Some t)) l))
            = List.length l).
  { induction l as [|x l IH]; simpl; [reflexivity|].
    destruct use_ocr; simpl; now rewrite IH. }
  rewrite !Hall. lia.
Qed.

Section AdvancedPlainWitness.
#[local] Existing Instance Demo.embedding.
#[local] Existing Instance Demo.services.

Lemma advanced_plain_keeps_index_ranking_witness :
  let model := AdvancedSearchModel.mk bool ["cat"] ["car"] true None None in
  let basis := SearchBasisParams.mk SearchBasisEnum.vision in
  let paging := SearchPagingParams.mk 10 0 in
  let w :=
    Demo.mkWorld
      [Demo.record "a" false None (Some 1%Z) None;
       Demo.record "b" false None (Some (-1)%Z) None] [] [] 0 in
  let hits := queryAdvanced [1%Z] [1%Z] "image_vector" true 10%Z 0%Z w in
  result_of (Search.advancedSearch model basis paging w)
  = Ok (mkSearchApiResponse hits
          (Search.results_message (List.length hits)) "0")
  /\ List.length
       (filter is_encoder_call
          (trace_of (Search.advancedSearch model basis paging w)))
     = 2.
Proof.
  intros model basis paging w hits.
  apply (advanced_plain_keeps_index_ranking (H0 := Demo.services)
           model basis paging w); discriminate.
Defined.

End AdvancedPlainWitness.

(** X5.  A combined advanced search queries the index on the field of the
    combined priority and returns what the index found, rescored against the
    extra prompt: as many results as the index gave, the same records, in
    descending order of the new score when [<] on scores is a strict weak
    order; the message reports their number. *)
Theorem advanced_combined_returns_rescored_ranking `{Services}
    (lt_asym : forall a b, score_lt a b = true -> score_lt b a = false)
    (lt_negtrans :
       forall a b c,
         score_lt a b = false -> score_lt b c = false -> score_lt a c = false)
    (model : AdvancedSearchModel.t Mode) (basis : SearchBasisParams.t)
    (paging : SearchPagingParams.t) (w : World)
    (priority : SearchCombinedPriorityEnum.t) (extra : string) :
  let ocr_first :=
    SearchCombinedPriorityEnum.eqb priority SearchCombinedPriorityEnum.ocr in
  let enc t :=
    if ocr_first then get_bert_vector (Some t) else get_text_vector (Some t) in
  let v :=
    if ocr_first then get_text_vector (Some extra)
    else get_bert_vector (Some extra) in
  let pos := AdvancedSearchModel.criteria model in
  let neg := AdvancedSearchModel.negative_criteria model in
  let hits :=
    queryAdvanced (map enc pos) (map enc neg)
      (getVectorByBasis (Some (SearchCombinedPriorityEnum.as_basis priority)))
      (AdvancedSearchModel.mode model) (SearchPagingParams.count paging)
      (SearchPagingParams.skip paging) w in
  SearchBasisParams.basis basis = SearchBasisEnum.combined ->
  AdvancedSearchModel.combined_priority model = Some priority ->
  AdvancedSearchModel.extra_prompt model = Some extra ->
  pos ++ neg <> [] ->
  exists out,
    result_of (Search.advancedSearch model basis paging w)
    = Ok (mkSearchApiResponse out
            (Search.results_message (List.length hits)) (fst (uuid4 w)))
    /\ Permutation out (map (Search.rescore v) hits)
    /\ map SearchResult.img (map (Search.rescore v) hits)
       = map SearchResult.img hits
    /\ StronglySorted
         (fun a b =>
            score_lt (SearchResult.score a) (SearchResult.score b) = false)
         out.
Proof.
  intros ocr_first enc v pos neg hits Hb Hp He Hne.
  rewrite (advancedSearch_combined_run model basis paging w priority extra
             Hb Hp He Hne).
  cbv zeta. fold ocr_first. fold enc v. fold pos neg. fold hits.
  exists (Py.list_sort score_lt SearchResult.score true
            (map (Search.rescore v) hits)).
  assert (Hperm :
            Permutation
              (Py.list_sort score_lt SearchResult.score true
                 (map (Search.rescore v) hits))
              (map (Search.rescore v) hits))
    by apply list_sort_perm.
  split; [|split; [exact Hperm|split]].
  - unfold result_of. cbn [fst]. do 3 f_equal.
    rewrite (Permutation_length Hperm). apply length_map.
  - rewrite map_map. reflexivity.
  - now apply list_sort_descending.
Qed.

Section AdvancedCombinedWitness.
#[local] Existing Instance Demo.embedding.
#[local] Existing Instance Demo.services.

Lemma advanced_combined_returns_rescored_ranking_witness :
  let model :=
    AdvancedSearchModel.mk bool ["cat"] [] true
      (Some SearchCombinedPriorityEnum.vision) (Some "outdoor") in
  let basis := SearchBasisParams.mk SearchBasisEnum.combined in
  let paging := SearchPagingParams.mk 10 0 in
  let w :=
    Demo.mkWorld
      [Demo.record "a" false None (Some 1%Z) None;
       Demo.record "b" false None (Some (-1)%Z) None] [] [] 0 in
  let hits := queryAdvanced [1%Z] [] "image_vector" true 10%Z 0%Z w in
  exists out,
    result_of (Search.advancedSearch model basis paging w)
    = Ok (mkSearchApiResponse out
            (Search.results_message (List.length hits)) "0")
    /\ Permutation out (map (Search.rescore (-1)%Z) hits)
    /\ map SearchResult.img (map (Search.rescore (-1)%Z) hits)
       = map SearchResult.img hits
    /\ StronglySorted
         (fun a b =>
            Z.ltb (SearchResult.score a) (SearchResult.score b) = false)
         out.
Proof.
  intros model basis paging w hits.
  apply (advanced_combined_returns_rescored_ranking (H0 := Demo.services))
    with (priority := SearchCombinedPriorityEnum.vision)
         (extra := "outdoor"%string)
         (model := model) (basis := basis) (paging := paging) (w := w).
  - intros a b Hab. simpl in *. apply Z.ltb_lt in Hab. apply Z.ltb_ge. lia.
  - intros a b c Hab Hbc. simpl in *.
    apply Z.ltb_ge in Hab, Hbc. apply Z.ltb_ge. lia.
  - reflexivity.
  - reflexivity.
  - reflexivity.
  - discriminate.
Defined.

End AdvancedCombinedWitness.

(** X6.  A text search and an advanced search with that text as its only
    criterion, on the same vision or ocr basis, call the same encoder on the
    same text, and query the same vector field with the vector obtained. *)
Theorem text_and_advanced_agree_on_encoder `{Services}
    (prompt : string) (model : AdvancedSearchModel.t Mode)
    (basis : SearchBasisParams.t) (paging : SearchPagingParams.t)
    (w : World) :
  SearchBasisParams.basis basis <> SearchBasisEnum.combined ->
  AdvancedSearchModel.criteria model = [prompt] ->
  AdvancedSearchModel.negative_criteria model = [] ->
  exists call v field,
    trace_of (Search.textSearch prompt basis paging w)
    = [call;
       QuerySearch v (Some field) (Some (SearchPagingParams.count paging))
         (Some (SearchPagingParams.skip paging))]
    /\ trace_of (Search.advancedSearch model basis paging w)
       = [call;
          QueryAdvanced [v] [] field (AdvancedSearchModel.mode model)
            (SearchPagingParams.count paging)
            (SearchPagingParams.skip paging)]
    /\ is_encoder_call call = true.
Proof.
  intros Hb Hpos Hneg.
  assert (Hne : AdvancedSearchModel.criteria model
                ++ AdvancedSearchModel.negative_criteria model <> [])
    by (rewrite Hpos; discriminate).
  rewrite (advancedSearch_plain_run model basis paging w Hb Hne).
  cbv zeta. rewrite Hpos, Hneg.
  unfold Search.textSearch, call_get_text_vector, call_get_bert_vector,
    call_querySearch, call_uuid4.
  destruct (SearchBasisParams.basis basis); try congruence;
    run_monad; do 3 eexists; repeat split; reflexivity.
Qed.

Section TextAdvancedWitness.
#[local] Existing Instance Demo.embedding.
#[local] Existing Instance Demo.services.

Lemma text_and_advanced_agree_on_encoder_witness :
  let model := AdvancedSearchModel.mk bool ["cat"] [] true None None in
  let basis := SearchBasisParams.mk SearchBasisEnum.ocr in
  let paging := SearchPagingParams.mk 10 0 in
  exists call v field,
    trace_of (Search.textSearch "cat" basis paging Demo.stored_world)
    = [call; QuerySearch v (Some field) (Some 10%Z) (Some 0%Z)]
    /\ trace_of (Search.advancedSearch model basis paging Demo.stored_world)
       = [call; QueryAdvanced [v] [] field true 10 0]
    /\ is_encoder_call call = true.
Proof.
  intros model basis paging.
  apply (text_and_advanced_agree_on_encoder (H0 := Demo.services)
           "cat" model basis paging Demo.stored_world).
  - discriminate.
  - reflexivity.
  - reflexivity.
Defined.

End TextAdvancedWitness.

(** ** Rescoring, further *)

Section SortedInput.
Context {A : Type} (lt : A -> A -> bool).

Lemma stable_sort_of_sorted (l : list A) :
  StronglySorted (fun a b => lt b a = false) l -> Py.stable_sort lt l = l.
Proof.
  induction 1 as [|x l Hs IH Hx]; simpl; [reflexivity|].
  rewrite IH. destruct l as [|y l]; simpl; [reflexivity|].
  inversion Hx as [|? ? Hyx _]; subst. now rewrite Hyx.
Qed.

End SortedInput.

Lemma list_sort_of_descending {A K : Type} (lt : K -> K -> bool)
    (key : A -> K) (l : list A) :
  StronglySorted (fun a b => lt (key a) (key b) = false) l ->
  Py.list_sort lt key true l = l.
Proof.
  intros Hs. unfold Py.list_sort.
  rewrite stable_sort_of_sorted; [apply rev_involutive|].
  exact (StronglySorted_rev
           (fun a b => lt (key a) (key b) = false) l Hs).
Qed.

(** X7.  Rescoring touches the scores only: the list it returns has as
    many results as it was given, their records are the records given,
    rearranged, and an empty list comes back empty. *)
Theorem rescoring_keeps_the_records `{Services}
    (result out : list SearchResult.t) (model : AdvancedSearchModel.t Mode)
    (w : World) :
  result_of (Search.calculate_and_sort_by_combined_scores result model w)
  = Ok out ->
  List.length out = List.length result
  /\ Permutation (map SearchResult.img out) (map SearchResult.img result)
  /\ (result = [] -> out = []).
Proof.
  rewrite calculate_and_sort_run. cbv zeta. unfold result_of. cbn [fst].
  match goal with
  | |- context [Py.list_sort ?lt ?key true ?l] =>
      pose proof (list_sort_perm lt key true l) as Hperm;
      remember (Py.list_sort lt key true l) as sorted eqn:Hsorted;
      clear Hsorted
  end.
  intros Hout. injection Hout as Hdef. subst sorted.
  split; [|split].
  - rewrite (Permutation_length Hperm). apply length_map.
  - eapply Permutation_trans; [apply Permutation_map, Hperm|].
    rewrite map_map. simpl. apply Permutation_refl.
  - intros Hnil. subst result. simpl in Hperm.
    apply Permutation_nil. now apply Permutation_sym.
Qed.

Section RecordsWitness.
#[local] Existing Instance Demo.embedding.
#[local] Existing Instance Demo.services.

Lemma rescoring_keeps_the_records_witness :
  let model :=
    AdvancedSearchModel.mk bool ["cat"] [] true
      (Some SearchCombinedPriorityEnum.ocr) (Some "outdoor") in
  let result :=
    [Demo.hit "a" (Some (-1)%Z) None 2%Z; Demo.hit "b" (Some 1%Z) None 5%Z] in
  let out :=
    [Demo.hit "b" (Some 1%Z) None 5%Z; Demo.hit "a" (Some (-1)%Z) None (-2)%Z]
  in
  List.length out = List.length result
  /\ Permutation (map SearchResult.img out) (map SearchResult.img result)
  /\ (result = [] -> out = []).
Proof.
  intros model result out.
  apply (rescoring_keeps_the_records (H0 := Demo.services)
           result out model Demo.stored_world).
  reflexivity.
Defined.

End RecordsWitness.

(** X8.  When the new scores already come in descending order, ties
    included, rescoring leaves every result at the rank the index gave it;
    no assumption on [<] is needed. *)
Theorem rescoring_keeps_descending_input `{Services}
    (result : list SearchResult.t) (model : AdvancedSearchModel.t Mode)
    (w : World) :
  let p := AdvancedSearchModel.extra_prompt model in
  let v :=
    if Search.priority_is_ocr (AdvancedSearchModel.combined_priority model)
    then get_text_vector p else get_bert_vector p in
  StronglySorted
    (fun a b =>
       score_lt (SearchResult.score a) (SearchResult.score b) = false)
    (map (Search.rescore v) result) ->
  result_of (Search.calculate_and_sort_by_combined_scores result model w)
  = Ok (map (Search.rescore v) result)
  /\ map SearchResult.img (map (Search.rescore v) result)
     = map SearchResult.img result.
Proof.
  intros p v Hsorted. rewrite calculate_and_sort_run. cbv zeta.
  fold p. fold v. unfold result_of. cbn [fst].
  rewrite (list_sort_of_descending score_lt SearchResult.score _ Hsorted).
  split; [reflexivity|]. now rewrite map_map.
Qed.

Section DescendingWitness.
#[local] Existing Instance Demo.embedding.
#[local] Existing Instance Demo.services.

Lemma rescoring_keeps_descending_input_witness :
  let model :=
    AdvancedSearchModel.mk bool ["cat"] [] true
      (Some SearchCombinedPriorityEnum.ocr) (Some "outdoor") in
  let result :=
    [Demo.hit "a" (Some 1%Z) None 5%Z; Demo.hit "b" (Some 1%Z) None 2%Z;
     Demo.hit "c" None (Some 1%Z) 2%Z; Demo.hit "d" (Some (-1)%Z) None 1%Z] in
  result_of
    (Search.calculate_and_sort_by_combined_scores result model
       Demo.stored_world)
  = Ok (map (Search.rescore 1%Z) result)
  /\ map SearchResult.img (map (Search.rescore 1%Z) result)
     = map SearchResult.img result.
Proof.
  intros model result.
  apply (rescoring_keeps_descending_input (H0 := Demo.services)
           result model Demo.stored_world).
  simpl. repeat constructor.
Defined.

End DescendingWitness.

(** ** Deleting *)

(** X9.  Deleting an id the index does not hold fails with status 404 right
    after the lookup: nothing is deleted, the storage is not consulted. *)
Theorem delete_unknown_image_is_404 `{Services}
    (image_id : string) (w : World) :
  retrieve_by_id image_id w = None ->
  Admin.delete_image image_id w
  = (Raise (HTTPException 404 "Cannot find the image with the given ID."),
     w, [RetrieveById image_id]).
Proof.
  intros Hnone.
  unfold Admin.delete_image, call_retrieve_by_id, Admin.not_found.
  run_monad. now rewrite Hnone.
Qed.

(** X10.  For a record that is not local, or with local storage disabled,
    [delete_image] removes the index entry and never calls the storage: no
    listing, no move, no thumbnail check. *)
Theorem delete_remote_image_leaves_storage `{Services}
    (image_id : string) (point : ImageData.t) (w : World) :
  retrieve_by_id image_id w = Some point ->
  ImageData.local point = false \/ config_storage_method_enabled = false ->
  Admin.delete_image image_id w
  = (Ok (mkNekoProtocol "Image deleted."),
     deleteItems [ImageData.id point] w,
     [RetrieveById image_id; DeleteItems [ImageData.id point]]).
Proof.
  intros Hfound Hremote.
  rewrite (delete_image_found_run image_id point w Hfound). cbv zeta.
  assert (Hoff :
            ImageData.local point && config_storage_method_enabled = false).
  { destruct Hremote as [Hl|Hc]; [now rewrite Hl|].
    rewrite Hc. apply andb_false_r. }
  now rewrite Hoff.
Qed.

(** X11.  A local record whose original is not in the storage is still
    deleted: the request succeeds, nothing is moved, and the thumbnail is
    handled as usual: checked when the record has a thumbnail url, and
    deleted from the storage when it exists.  The world left is the one
    after the index deletion, less that thumbnail. *)
Theorem delete_local_image_without_file_succeeds `{Services}
    (image_id : string) (point : ImageData.t) (w : World) :
  let id := ImageData.id point in
  let w1 := deleteItems [id] w in
  let thumbnail_file := ("thumbnails/" ++ id ++ ".webp")%string in
  retrieve_by_id image_id w = Some point ->
  ImageData.local point = true ->
  config_storage_method_enabled = true ->
  list_files "" (id ++ ".*")%string w1 = [] ->
  Admin.delete_image image_id w
  = (Ok (mkNekoProtocol "Image deleted."),
     match ImageData.thumbnail_url point with
     | None => w1
     | Some _ =>
         if is_exist thumbnail_file w1 then delete thumbnail_file w1 else w1
     end,
     [RetrieveById image_id; DeleteItems [id];
      ListFiles "" (id ++ ".*")%string]
     ++ match ImageData.thumbnail_url point with
        | None => []
        | Some _ =>
            IsExist thumbnail_file
            :: (if is_exist thumbnail_file w1
                then [Delete thumbnail_file] else [])
        end).
Proof.
  intros id w1 thumbnail_file Hfound Hlocal Hconf Hnone.
  rewrite (delete_image_found_run image_id point w Hfound). cbv zeta.
  rewrite Hlocal, Hconf. cbn [andb].
  rewrite delete_local_files_run. cbv zeta. fold id w1.
  rewrite Hnone. unfold thumbnail_calls. fold id thumbnail_file.
  destruct (ImageData.thumbnail_url point); [|reflexivity].
  destruct (is_exist thumbnail_file w1); reflexivity.
Qed.

(** X12.  Whenever the record is found, the index entry of its id is
    deleted second, straight after the lookup, and every later call goes to
    the storage: the entry is gone before any file is touched, also in the
    runs that fail later. *)
Theorem delete_removes_index_entry_first `{Services}
    (image_id : string) (point : ImageData.t) (w : World) :
  retrieve_by_id image_id w = Some point ->
  exists rest,
    trace_of (Admin.delete_image image_id w)
    = RetrieveById image_id :: DeleteItems [ImageData.id point] :: rest
    /\ Forall (fun e => is_storage_call e = true) rest.
Proof.
  intros Hfound.
  rewrite (delete_image_found_run image_id point w Hfound). cbv zeta.
  destruct (ImageData.local point && config_storage_method_enabled);
    cbv iota.
  - rewrite delete_local_files_run. cbv zeta.
    assert (Hthumb : forall w',
              Forall (fun e => is_storage_call e = true)
                (thumbnail_calls point w')).
    { intros w'. unfold thumbnail_calls.
      destruct (ImageData.thumbnail_url point); [|constructor].
      destruct (is_exist _ w'); repeat constructor. }
    destruct (map fst (list_files "" _ _)) as [|f [|g others]];
      eexists; (split; [reflexivity|]);
      repeat (constructor; [reflexivity|]); try apply Hthumb.
    constructor.
  - exists []. split; [reflexivity|constructor].
Qed.

Section DeleteRuns.
#[local] Existing Instance Demo.embedding.
#[local] Existing Instance Demo.services.

Lemma delete_unknown_image_is_404_witness :
  Admin.delete_image "ZZ" Demo.one_file_world
  = (Raise (HTTPException 404 "Cannot find the image with the given ID."),
     Demo.one_file_world, [RetrieveById "ZZ"]).
Proof.
  apply (delete_unknown_image_is_404 (H0 := Demo.services)).
  reflexivity.
Defined.

Lemma delete_remote_image_leaves_storage_witness :
  Admin.delete_image "AB" Demo.stored_world
  = (Ok (mkNekoProtocol "Image deleted."),
     Demo.mkWorld [] [] [] 0,
     [RetrieveById "AB"; DeleteItems ["AB"]]).
Proof.
  apply (delete_remote_image_leaves_storage (H0 := Demo.services)
           "AB" (Demo.record "AB" false None (Some 1%Z) None)
           Demo.stored_world).
  - reflexivity.
  - left. reflexivity.
Defined.

Lemma delete_local_image_without_file_succeeds_witness :
  Admin.delete_image "AB"
    (Demo.mkWorld [Demo.local_record] ["CD.png"; "thumbnails/AB.webp"] [] 0)
  = (Ok (mkNekoProtocol "Image deleted."),
     Demo.mkWorld [] ["CD.png"] [] 0,
     [RetrieveById "AB"; DeleteItems ["AB"]; ListFiles "" "AB.*";
      IsExist "thumbnails/AB.webp"; Delete "thumbnails/AB.webp"]).
Proof.
  apply (delete_local_image_without_file_succeeds (H0 := Demo.services)
           "AB" Demo.local_record
           (Demo.mkWorld [Demo.local_record]
              ["CD.png"; "thumbnails/AB.webp"] [] 0));
    reflexivity.
Defined.

Lemma delete_removes_index_entry_first_witness :
  exists rest,
    trace_of (Admin.delete_image "AB" Demo.two_files_world)
    = RetrieveById "AB" :: DeleteItems ["AB"] :: rest
    /\ Forall (fun e => is_storage_call e = true) rest.
Proof.
  apply (delete_removes_index_entry_first (H0 := Demo.services)
           "AB" Demo.local_record Demo.two_files_world).
  reflexivity.
Defined.

End DeleteRuns.

(** ** Updating *)

(** X13.  Updating an id the index does not hold fails with status 404
    after the lookup, and writes nothing. *)
Theorem update_unknown_image_is_404 `{Services}
    (image_id : string) (model : ImageOptUpdateModel.t) (w : World) :
  ImageOptUpdateModel.empty model = false ->
  retrieve_by_id image_id w = None ->
  Admin.update_image image_id model w
  = (Raise (HTTPException 404 "Cannot find the image with the given ID."),
     w, [RetrieveById image_id]).
Proof.
  intros Hnonempty Hnone.
  unfold Admin.update_image, call_retrieve_by_id, Admin.not_found.
  rewrite Hnonempty. run_monad. now rewrite Hnone.
Qed.

(** X14.  An update is idempotent: if the index gives back the payload it
    was handed, sending the same update again writes that very payload
    again. *)
Theorem update_twice_writes_same_payload `{Services}
    (image_id : string) (model : ImageOptUpdateModel.t)
    (point : ImageData.t) (w : World) :
  ImageOptUpdateModel.empty model = false ->
  retrieve_by_id image_id w = Some point ->
  exists written,
    Admin.update_image image_id model w
    = (Ok (mkNekoProtocol "Image updated."), updatePayload written w,
       [RetrieveById image_id; UpdatePayload written])
    /\ (retrieve_by_id image_id (updatePayload written w) = Some written ->
        Admin.update_image image_id model (updatePayload written w)
        = (Ok (mkNekoProtocol "Image updated."),
           updatePayload written (updatePayload written w),
           [RetrieveById image_id; UpdatePayload written])).
Proof.
  intros Hnonempty Hfound.
  unfold Admin.update_image. rewrite Hnonempty.
  unfold call_retrieve_by_id, call_updatePayload. run_monad.
  rewrite Hfound. simpl.
  eexists. split; [reflexivity|].
  intros Hagain. rewrite Hagain. simpl.
  destruct point, (ImageOptUpdateModel.starred model),
    (ImageOptUpdateModel.categories model); reflexivity.
Qed.

Section UpdateRuns.
#[local] Existing Instance Demo.embedding.
#[local] Existing Instance Demo.services.

Lemma update_unknown_image_is_404_witness :
  Admin.update_image "ZZ" (ImageOptUpdateModel.mk (Some true) None)
    Demo.stored_world
  = (Raise (HTTPException 404 "Cannot find the image with the given ID."),
     Demo.stored_world, [RetrieveById "ZZ"]).
Proof.
  apply (update_unknown_image_is_404 (H0 := Demo.services));
    reflexivity.
Defined.

Lemma update_twice_writes_same_payload_witness :
  let model := ImageOptUpdateModel.mk (Some true) (Some ["cats"]) in
  exists written,
    Admin.update_image "AB" model Demo.stored_world
    = (Ok (mkNekoProtocol "Image updated."),
       updatePayload written Demo.stored_world,
       [RetrieveById "AB"; UpdatePayload written])
    /\ (retrieve_by_id "AB" (updatePayload written Demo.stored_world)
        = Some written ->
        Admin.update_image "AB" model
          (updatePayload written Demo.stored_world)
        = (Ok (mkNekoProtocol "Image updated."),
           updatePayload written (updatePayload written Demo.stored_world),
           [RetrieveById "AB"; UpdatePayload written])).
Proof.
  intros model.
  apply (update_twice_writes_same_payload (H0 := Demo.services)
           "AB" model (Demo.record "AB" false None (Some 1%Z) None)
           Demo.stored_world);
    reflexivity.
Defined.

End UpdateRuns.

(** ** Uploading, further *)

Section FormatFacts.

Lemma lower_ascii_idempotent (c : ascii) :
  Py.lower_ascii (Py.lower_ascii c) = Py.lower_ascii c.
Proof.
  destruct c as [[] [] [] [] [] [] [] []]; reflexivity.
Qed.

Lemma lower_idempotent (s : string) : Py.lower (Py.lower s) = Py.lower s.
Proof.
  induction s as [|c s IH]; simpl; [reflexivity|].
  now rewrite lower_ascii_idempotent, IH.
Qed.

Lemma dict_get_IMAGE_MIMES_range (k t : string) :
  Py.dict_get Admin.IMAGE_MIMES k = Some t ->
  In t ["jpeg"; "png"; "webp"; "gif"].
Proof.
  unfold Admin.IMAGE_MIMES. simpl.
  repeat match goal with
         | |- (if ?c then _ else _) = _ -> _ => destruct c
         end;
    intros Heq; inversion Heq; simpl; auto 6.
Qed.

Lemma tail_of_extension_range (e : string) :
  Py.str_in e Admin.IMAGE_EXTENSIONS = true ->
  In (Py.tail e) ["jpg"; "png"; "jpeg"; "jfif"; "webp"; "gif"].
Proof.
  unfold Py.str_in, Admin.IMAGE_EXTENSIONS. simpl. intros Hin.
  repeat (apply orb_true_iff in Hin; destruct Hin as [Hin|Hin];
          [apply String.eqb_eq in Hin; subst; simpl; auto 8|]).
  discriminate.
Qed.

End FormatFacts.

(** X15.  The format tag [upload_image] settles on is always one of jpeg,
    png, webp, gif, jpg and jfif: the first four from the content type, the
    others also from the file name. *)
Theorem resolved_format_is_known (image_file : UploadFile.t) (t : string) :
  Admin.resolve_img_type image_file = Some t ->
  In t ["jpeg"; "png"; "webp"; "gif"; "jpg"; "jfif"].
Proof.
  unfold Admin.resolve_img_type.
  destruct (UploadFile.content_type image_file) as [ct|]; [|discriminate].
  destruct (Py.dict_get _ _) as [t'|] eqn:Hmime.
  - intros Heq. inversion Heq; subst.
    apply dict_get_IMAGE_MIMES_range in Hmime. simpl in *.
    intuition auto.
  - destruct (UploadFile.filename image_file) as [[|c fn]|]; try discriminate.
    destruct (Py.str_in _ _) eqn:Hext; [|discriminate].
    intros Heq. inversion Heq; subst.
    apply tail_of_extension_range in Hext. simpl in *.
    intuition auto.
Qed.

Lemma resolved_format_is_known_witness :
  In "jfif" ["jpeg"; "png"; "webp"; "gif"; "jpg"; "jfif"].
Proof.
  apply (resolved_format_is_known
           (UploadFile.mk (Some "application/octet-stream") (Some "scan.JFIF") [])).
  reflexivity.
Defined.

(** X16.  The declared content type is matched without regard to case, and
    when it is one of the four image types it decides the format alone: the
    file name and the bytes play no part. *)
Theorem content_type_decides_format
    (ct : string) (fn : option string) (bytes : list Byte.byte) :
  Admin.resolve_img_type (UploadFile.mk (Some ct) fn bytes)
  = Admin.resolve_img_type (UploadFile.mk (Some (Py.lower ct)) fn bytes)
  /\ forall t,
       Py.dict_get Admin.IMAGE_MIMES (Py.lower ct) = Some t ->
       forall fn' bytes',
         Admin.resolve_img_type (UploadFile.mk (Some ct) fn' bytes') = Some t.
Proof.
  split.
  - unfold Admin.resolve_img_type. simpl. now rewrite lower_idempotent.
  - intros t Hmime fn' bytes'. unfold Admin.resolve_img_type.
    cbn [UploadFile.content_type]. now rewrite Hmime.
Qed.

Lemma content_type_decides_format_witness :
  Admin.resolve_img_type (UploadFile.mk (Some "IMAGE/Png") (Some "photo.gif") [])
  = Admin.resolve_img_type (UploadFile.mk (Some "image/png") (Some "photo.gif") [])
  /\ Admin.resolve_img_type (UploadFile.mk (Some "IMAGE/Png") (Some "photo.gif") [])
     = Some "png".
Proof.
  destruct (content_type_decides_format "IMAGE/Png" (Some "photo.gif") [])
    as [Hcase Hmime].
  split; [exact Hcase|].
  apply (Hmime "png"). reflexivity.
Defined.

(** X17.  An upload that passes the three checks is answered with the
    content-addressed id and enqueued once, with a record that carries that
    id, the resolved format, the fields of the request and no embedding
    yet; nothing is written to the index. *)
Theorem upload_accepted_is_enqueued_once `{Services}
    (image_file : UploadFile.t) (model : UploadImageModel.t) (w : World)
    (t : string) (image : Image) :
  let img_bytes := UploadFile.contents image_file in
  let img_id := generate_uuid img_bytes in
  Admin.resolve_img_type image_file = Some t ->
  validate_ids [img_id] w = [] ->
  Image_open img_bytes = Ok image ->
  exists data,
    Admin.upload_image image_file model w
    = (Ok (mkImageUploadResponse "OK. Image added to upload queue." img_id),
       upload_service_upload_image image data img_bytes
         (UploadImageModel.skip_ocr model) w,
       [ValidateIds [img_id];
        UploadImage image data img_bytes (UploadImageModel.skip_ocr model)])
    /\ ImageData.id data = img_id
    /\ ImageData.format data = t
    /\ ImageData.url data = UploadImageModel.url model
    /\ ImageData.thumbnail_url data = UploadImageModel.thumbnail_url model
    /\ ImageData.local data = UploadImageModel.local model
    /\ ImageData.categories data = UploadImageModel.categories model
    /\ ImageData.starred data = UploadImageModel.starred model
    /\ ImageData.index_date data = datetime_now w
    /\ ImageData.image_vector data = None
    /\ ImageData.text_contain_vector data = None.
Proof.
  intros img_bytes img_id Hres Hfresh Hopen.
  rewrite (upload_image_resolved image_file model w t Hres). cbv zeta.
  fold img_bytes img_id. rewrite Hfresh, Hopen.
  eexists. split; [reflexivity|]. repeat split; reflexivity.
Qed.

(** X18.  When the bytes cannot be opened, nothing is enqueued and the world
    is as it was after the duplicate check: [UnidentifiedImageError] becomes
    the HTTP error 400, and any other exception of [Image.open] leaves the
    handler unchanged. *)
Theorem upload_undecodable_enqueues_nothing `{Services}
    (image_file : UploadFile.t) (model : UploadImageModel.t) (w : World)
    (e : exn) :
  let img_bytes := UploadFile.contents image_file in
  let img_id := generate_uuid img_bytes in
  Admin.resolve_img_type image_file <> None ->
  validate_ids [img_id] w = [] ->
  Image_open img_bytes = Raise e ->
  Admin.upload_image image_file model w
  = (Raise (if is_UnidentifiedImageError e
            then HTTPException 400 "Cannot open the image file."
            else e),
     w, [ValidateIds [img_id]]).
Proof.
  intros img_bytes img_id Hres Hfresh Hopen.
  destruct (Admin.resolve_img_type image_file) as [t|] eqn:Ht; [|congruence].
  rewrite (upload_image_resolved image_file model w t Ht). cbv zeta.
  fold img_bytes img_id. rewrite Hfresh, Hopen.
  destruct e; reflexivity.
Qed.

(** X19.  The duplicate check looks at the index only.  While the index
    does not yet hold an accepted upload, the same file sent again is
    accepted again, with the same id, and enqueued a second time. *)
Theorem upload_repeated_before_indexing `{Services}
    (image_file : UploadFile.t) (model : UploadImageModel.t) (w : World)
    (t : string) (image : Image) :
  let img_bytes := UploadFile.contents image_file in
  let img_id := generate_uuid img_bytes in
  let w' := world_of (Admin.upload_image image_file model w) in
  let accepted :=
    Ok (mkImageUploadResponse "OK. Image added to upload queue." img_id) in
  Admin.resolve_img_type image_file = Some t ->
  validate_ids [img_id] w = [] ->
  Image_open img_bytes = Ok image ->
  validate_ids [img_id] w' = [] ->
  result_of (Admin.upload_image image_file model w) = accepted
  /\ result_of (Admin.upload_image image_file model w') = accepted
  /\ exists d1 d2,
       trace_of (Admin.upload_image image_file model w)
       = [ValidateIds [img_id];
          UploadImage image d1 img_bytes (UploadImageModel.skip_ocr model)]
       /\ trace_of (Admin.upload_image image_file model w')
          = [ValidateIds [img_id];
             UploadImage image d2 img_bytes
               (UploadImageModel.skip_ocr model)]
       /\ ImageData.id d1 = ImageData.id d2.
Proof.
  intros img_bytes img_id w' accepted Hres Hfresh Hopen Hstill.
  pose proof (upload_image_resolved image_file model w t Hres) as Hrun1.
  pose proof (upload_image_resolved image_file model w' t Hres) as Hrun2.
  cbv zeta in Hrun1, Hrun2. fold img_bytes img_id in Hrun1, Hrun2.
  rewrite Hfresh, Hopen in Hrun1. rewrite Hstill, Hopen in Hrun2.
  rewrite Hrun1, Hrun2.
  split; [reflexivity|]. split; [reflexivity|].
  do 2 eexists. split; [reflexivity|]. split; reflexivity.
Qed.

Section UploadExtraRuns.
#[local] Existing Instance Demo.embedding.
#[local] Existing Instance Demo.services.

Lemma upload_accepted_is_enqueued_once_witness :
  let image_file := UploadFile.mk (Some "image/png") (Some "cd.png") Demo.fresh_bytes in
  let model := UploadImageModel.mk None None true ["cats"] false false in
  exists data,
    Admin.upload_image image_file model Demo.stored_world
    = (Ok (mkImageUploadResponse "OK. Image added to upload queue." "CD"),
       upload_service_upload_image Demo.fresh_bytes data Demo.fresh_bytes
         false Demo.stored_world,
       [ValidateIds ["CD"];
        UploadImage Demo.fresh_bytes data Demo.fresh_bytes false])
    /\ ImageData.id data = "CD"
    /\ ImageData.format data = "png"
    /\ ImageData.url data = None
    /\ ImageData.thumbnail_url data = None
    /\ ImageData.local data = true
    /\ ImageData.categories data = ["cats"]
    /\ ImageData.starred data = false
    /\ ImageData.index_date data = 0%Z
    /\ ImageData.image_vector data = None
    /\ ImageData.text_contain_vector data = None.
Proof.
  intros image_file model.
  apply (upload_accepted_is_enqueued_once (H0 := Demo.services)
           image_file model Demo.stored_world "png" Demo.fresh_bytes);
    reflexivity.
Defined.

Lemma upload_undecodable_enqueues_nothing_witness :
  Admin.upload_image (UploadFile.mk (Some "image/png") (Some "x.png") [])
    (UploadImageModel.mk None None false [] false false) Demo.stored_world
  = (Raise (HTTPException 400 "Cannot open the image file."),
     Demo.stored_world, [ValidateIds [""]]).
Proof.
  apply (upload_undecodable_enqueues_nothing (H0 := Demo.services)
           (UploadFile.mk (Some "image/png") (Some "x.png") [])
           (UploadImageModel.mk None None false [] false false)
           Demo.stored_world UnidentifiedImageError).
  - discriminate.
  - reflexivity.
  - reflexivity.
Defined.

Lemma upload_repeated_before_indexing_witness :
  let image_file := UploadFile.mk (Some "image/png") (Some "cd.png") Demo.fresh_bytes in
  let model := UploadImageModel.mk None None false [] false false in
  let w' := world_of (Admin.upload_image image_file model Demo.stored_world) in
  let accepted :=
    Ok (mkImageUploadResponse "OK. Image added to upload queue." "CD") in
  result_of (Admin.upload_image image_file model Demo.stored_world) = accepted
  /\ result_of (Admin.upload_image image_file model w') = accepted
  /\ exists d1 d2,
       trace_of (Admin.upload_image image_file model Demo.stored_world)
       = [ValidateIds ["CD"];
          UploadImage Demo.fresh_bytes d1 Demo.fresh_bytes false]
       /\ trace_of (Admin.upload_image image_file model w')
          = [ValidateIds ["CD"];
             UploadImage Demo.fresh_bytes d2 Demo.fresh_bytes false]
       /\ ImageData.id d1 = ImageData.id d2.
Proof.
  intros image_file model w' accepted.
  apply (upload_repeated_before_indexing (H0 := Demo.services)
           image_file model Demo.stored_world "png" Demo.fresh_bytes);
    reflexivity.
Defined.

End UploadExtraRuns.

(** X20.  Every rejection that [upload_image] and [update_image] raise
    themselves comes before their one writing call: when a run ends in the
    415, the 409 or the 400 of [upload_image], or in the 422 or the 404 of
    [update_image], the world is as before and no call that changes the
    index, the storage or the queue was made. *)
Theorem own_rejections_precede_writes `{Services}
    (image_file : UploadFile.t) (upload : UploadImageModel.t)
    (image_id : string) (update : ImageOptUpdateModel.t) (w : World) :
  let img_id := generate_uuid (UploadFile.contents image_file) in
  (forall e,
     In e [HTTPException 415 "Unsupported image format.";
           HTTPException 409 (Admin.duplicate_detail img_id);
           HTTPException 400 "Cannot open the image file."] ->
     result_of (Admin.upload_image image_file upload w) = Raise e ->
     world_of (Admin.upload_image image_file upload w) = w
     /\ Forall (fun ev => is_mutation ev = false)
          (trace_of (Admin.upload_image image_file upload w)))
  /\ (forall e,
        In e [HTTPException 422 "Nothing to update.";
              HTTPException 404 "Cannot find the image with the given ID."] ->
        result_of (Admin.update_image image_id update w) = Raise e ->
        world_of (Admin.update_image image_id update w) = w
        /\ Forall (fun ev => is_mutation ev = false)
             (trace_of (Admin.update_image image_id update w))).
Proof.
  intros img_id. split; intros e _.
  - destruct (Admin.resolve_img_type image_file) as [t|] eqn:Ht.
    + rewrite (upload_image_resolved image_file upload w t Ht). cbv zeta.
      destruct (validate_ids _ w) as [|i rest].
      * destruct (Image_open _) as [image|e'].
        -- discriminate.
        -- destruct e'; intros _; split; try reflexivity;
             repeat constructor.
      * intros _. split; [reflexivity|repeat constructor].
    + destruct (UploadFile.content_type image_file) as [ct|] eqn:Hct.
      * rewrite (upload_image_unsupported image_file upload w)
          by (assumption || congruence).
        intros _. split; [reflexivity|constructor].
      * rewrite (upload_image_no_content_type _ _ _ Hct).
        intros _. split; [reflexivity|constructor].
  - unfold Admin.update_image.
    destruct (ImageOptUpdateModel.empty update).
    + intros _. split; [reflexivity|constructor].
    + unfold call_retrieve_by_id, call_updatePayload, Admin.not_found.
      run_monad.
      destruct (retrieve_by_id image_id w); simpl.
      * discriminate.
      * intros _. split; [reflexivity|repeat constructor].
Qed.

Section FailedRuns.
#[local] Existing Instance Demo.embedding.
#[local] Existing Instance Demo.services.

Lemma own_rejections_precede_writes_witness :
  let image_file := UploadFile.mk (Some "image/png") None Demo.stored_bytes in
  let upload := UploadImageModel.mk None None false [] false false in
  let update := ImageOptUpdateModel.mk (Some true) None in
  world_of (Admin.upload_image image_file upload Demo.stored_world)
  = Demo.stored_world
  /\ world_of (Admin.update_image "ZZ" update Demo.stored_world)
     = Demo.stored_world.
Proof.
  intros image_file upload update.
  destruct (own_rejections_precede_writes (H0 := Demo.services)
              image_file upload "ZZ" update Demo.stored_world)
    as [Hupload Hupdate].
  split.
  - apply (Hupload
             (HTTPException 409
                "The uploaded point is already contained in the database! entity id: AB")).
    + right. left. reflexivity.
    + reflexivity.
  - apply (Hupdate
             (HTTPException 404 "Cannot find the image with the given ID.")).
    + right. left. reflexivity.
    + reflexivity.
Defined.

Lemma basis_params_accept_iff_witness :
  Search.SearchBasisParams_init SearchBasisEnum.combined
  = Ok (SearchBasisParams.mk SearchBasisEnum.combined).
Proof.
  apply (basis_params_accept_iff (H0 := Demo.services)
           SearchBasisEnum.combined).
  right. reflexivity.
Defined.

End FailedRuns.
